(** * Discussion-forum backend (Node.js): request handlers over a document store

    A shallow embedding of the Express handlers of [Node.js]: signup and
    login for users, create / list / update / delete for questions, and
    replies attached to a question.  Each handler is a computation in a
    small state-and-exception monad over the three collections; a
    [try { ... } catch] block becomes [try_catch].

    What the libraries do is written out once, in the first part of the
    file: Mongoose's schema types (casting, [required], defaults, the unique
    index) and bcrypt's argument checks.  The functions that only exist
    inside those libraries (the digest, the ObjectId parser, JavaScript's
    number/string conversions) are fields of the class [Collaborators]; all
    results hold for every instance.

    Scope of the model: request bodies are JSON objects whose values are
    scalars (null, booleans, integers, strings); requests are handled one
    after the other. *)

From stdpp Require Import base option strings pretty gmap list.
From Stdlib Require Import ZArith NArith Ascii.

Local Open Scope string_scope.

(** ** Values, errors, documents *)

(** A scalar JSON value of a request body.  A key that is absent from the
    body reads as [None] (JavaScript's [undefined]). *)
Inductive json : Type :=
  | JNull
  | JBool (b : bool)
  | JNum (n : Z)
  | JStr (s : string).

Definition ObjectId : Type := N.
Bind Scope N_scope with ObjectId.

(** Exceptions that reach a handler's [catch]. *)
Inductive error : Type :=
  | CastError (path : string)
  | ValidationError (paths : list string)
  | DuplicateKey (path : string)
  | BcryptArguments.

(** Stored documents.  A stored required string is a non-empty string;
    [resolved] and [upvotes] may hold [null] ([None]). *)
Record User : Type := mkUser {
  user_id : ObjectId;
  firstName : string;
  lastName : string;
  email : string;
  password : string
}.

Record Question : Type := mkQuestion {
  question_id : ObjectId;
  title : string;
  description : string;
  resolved : option bool;
  upvotes : option Z
}.

Record Reply : Type := mkReply {
  reply_id : ObjectId;
  content : string;
  questionId : ObjectId
}.

(** The database: three collections in natural (insertion) order, and the
    generator of fresh identifiers. *)
Record Store : Type := mkStore {
  users : list User;
  questions : list Question;
  replies : list Reply;
  nextId : N
}.

Definition empty_store : Store := mkStore [] [] [] 0.

(** ** Responses *)

Inductive payload : Type :=
  | Message (message : string)
  | MessageError (message : string) (err : error)
  | ErrMessage (err : error)
  | MessageUser (message : string) (user : User)
  | MessageQuestion (message : string) (question : Question)
  | MessageReply (message : string) (reply : Reply)
  | QuestionArray (l : list Question)
  | ReplyArray (l : list Reply).

Record response : Type := mkResponse {
  status : nat;
  sent : payload
}.

(** The JSON text of a response, as a tree.  A serialised error object and
    an error's message text are leaves. *)
#[warnings="-register-all"]
Inductive wire : Type :=
  | WNull
  | WBool (b : bool)
  | WNum (n : Z)
  | WStr (s : string)
  | WId (i : ObjectId)
  | WErr (e : error)
  | WErrText (e : error)
  | WArr (items : list wire)
  | WObj (fields : list (string * wire)).

Definition opt_wire {A : Type} (f : A -> wire) (o : option A) : wire :=
  match o with Some a => f a | None => WNull end.

Definition User_toJSON (u : User) : wire :=
  WObj [("_id", WId (user_id u)); ("firstName", WStr (firstName u));
        ("lastName", WStr (lastName u)); ("email", WStr (email u));
        ("password", WStr (password u)); ("__v", WNum 0)].

Definition Question_toJSON (q : Question) : wire :=
  WObj [("_id", WId (question_id q)); ("title", WStr (title q));
        ("description", WStr (description q));
        ("resolved", opt_wire WBool (resolved q));
        ("upvotes", opt_wire WNum (upvotes q)); ("__v", WNum 0)].

Definition Reply_toJSON (r : Reply) : wire :=
  WObj [("_id", WId (reply_id r)); ("content", WStr (content r));
        ("questionId", WId (questionId r)); ("__v", WNum 0)].

Definition to_wire (p : payload) : wire :=
  match p with
  | Message m => WObj [("message", WStr m)]
  | MessageError m e => WObj [("message", WStr m); ("error", WErr e)]
  | ErrMessage e => WObj [("message", WErrText e)]
  | MessageUser m u => WObj [("message", WStr m); ("user", User_toJSON u)]
  | MessageQuestion m q =>
      WObj [("message", WStr m); ("question", Question_toJSON q)]
  | MessageReply m r => WObj [("message", WStr m); ("reply", Reply_toJSON r)]
  | QuestionArray l => WArr (map Question_toJSON l)
  | ReplyArray l => WArr (map Reply_toJSON l)
  end.

(** [has_field k w]: some object inside [w] has a key [k]. *)
Fixpoint has_field (k : string) (w : wire) : bool :=
  match w with
  | WArr items => existsb (has_field k) items
  | WObj fields =>
      existsb (fun kv => String.eqb k (fst kv) || has_field k (snd kv)) fields
  | _ => false
  end.

(** [get_field k w]: the value under key [k] of the object [w]. *)
Definition get_field (k : string) (w : wire) : option wire :=
  match w with
  | WObj fields => snd <$> List.find (fun kv => String.eqb k (fst kv)) fields
  | _ => None
  end.

(** ** The state-and-exception monad of a handler body *)

Inductive result (A : Type) : Type :=
  | Ok (a : A)
  | Throw (e : error).
Arguments Ok {A} a.
Arguments Throw {A} e.

Definition M (A : Type) : Type := Store -> result A * Store.

Definition ret {A : Type} (a : A) : M A := fun st => (Ok a, st).
Definition throw {A : Type} (e : error) : M A := fun st => (Throw e, st).
Definition bind {A B : Type} (m : M A) (f : A -> M B) : M B :=
  fun st =>
    match m st with
    | (Ok a, st') => f a st'
    | (Throw e, st') => (Throw e, st')
    end.
Definition gets {A : Type} (f : Store -> A) : M A := fun st => (Ok (f st), st).

Notation "x <- c ;; k" := (bind c (fun x => k))
  (at level 100, c at next level, right associativity).

(** [try { body } catch (err) { handler err }] around a whole handler. *)
Definition try_catch (body : M response) (handler : error -> response)
    (st : Store) : response * Store :=
  match body st with
  | (Ok r, st') => (r, st')
  | (Throw e, st') => (handler e, st')
  end.

(** [res.status(n).json(p)], and [res.json(p)] with the default status. *)
Definition res_status_json (n : nat) (p : payload) : response := mkResponse n p.
Definition res_json (p : payload) : response := mkResponse 200 p.

(** ** Collaborators

    The parts of bcrypt, of Mongoose and of JavaScript that the handlers
    call and whose bodies are not part of this program. *)
Class Collaborators : Type := {
  (** bcrypt's digest of a string, for a cost and the salt drawn for it *)
  digest : string -> nat -> string -> string;
  (** bcrypt's check of a string against a digest *)
  matches : string -> string -> bool;
  (** Mongoose's ObjectId caster on a route parameter *)
  castObjectId : string -> option ObjectId;
  (** JavaScript's [Number(s)] on a string, [None] for [NaN] *)
  toNumber : string -> option Z;
  (** JavaScript's [n.toString()] *)
  numberToString : Z -> string;
  (** a digest is never the empty string *)
  digest_nonempty : forall data rounds salt, digest data rounds salt <> ""
}.

(** Stand-ins on which the handlers can be run: a transparent digest, the
    24-hex-digit ObjectId syntax, decimal numerals. *)
Definition hex_digit (c : ascii) : option N :=
  let n := N_of_ascii c in
  if (48 <=? n)%N && (n <=? 57)%N then Some (n - 48)%N
  else if (97 <=? n)%N && (n <=? 102)%N then Some (n - 87)%N
  else if (65 <=? n)%N && (n <=? 70)%N then Some (n - 55)%N
  else None.

Fixpoint hex_value (acc : N) (s : string) : option N :=
  match s with
  | EmptyString => Some acc
  | String c s' =>
      match hex_digit c with
      | Some d => hex_value (16 * acc + d)%N s'
      | None => None
      end
  end.

Definition hex24 (s : string) : option ObjectId :=
  if Nat.eqb (String.length s) 24 then hex_value 0%N s else None.

Definition dec_digit (c : ascii) : option Z :=
  let n := N_of_ascii c in
  if (48 <=? n)%N && (n <=? 57)%N then Some (Z.of_N (n - 48)) else None.

Fixpoint dec_value (acc : Z) (s : string) : option Z :=
  match s with
  | EmptyString => Some acc
  | String c s' =>
      match dec_digit c with
      | Some d => dec_value (10 * acc + d)%Z s'
      | None => None
      end
  end.

Definition plain_digest (data : string) (rounds : nat) (salt : string)
    : string :=
  "$" +:+ salt +:+ "$" +:+ data.

Definition plain_matches (data hash : string) : bool :=
  match hash with
  | String "$" rest =>
      let n := String.length rest - String.length data in
      match n with
      | O => false
      | S m =>
          String.eqb (String.substring m (S (String.length data)) rest)
            ("$" +:+ data)
      end
  | _ => false
  end.

Definition plain : Collaborators := {|
  digest := plain_digest;
  matches := plain_matches;
  castObjectId := hex24;
  toNumber := dec_value 0;
  numberToString := fun n => pretty n;
  digest_nonempty := fun _ _ _ E =>
    match E in _ = s return match s with EmptyString => False | _ => True end
    with eq_refl => I end
|}.

Section Forum.
Context `{Collaborators}.

(** ** bcrypt: argument checks around the digest *)

(** [bcrypt.hash(data, rounds)]: rejects when [data] is not a string. *)
Definition bcrypt_hash (data : option json) (rounds : nat) (salt : string)
    : M string :=
  match data with
  | Some (JStr s) => ret (digest s rounds salt)
  | _ => throw BcryptArguments
  end.

(** [bcrypt.compare(data, hash)]: rejects when [data] is not a string. *)
Definition bcrypt_compare (data : option json) (hash : string) : M bool :=
  match data with
  | Some (JStr s) => ret (matches s hash)
  | _ => throw BcryptArguments
  end.

(** ** Mongoose schema types *)

(** String: [null] and [undefined] stay empty, scalars are converted with
    [toString()]. *)
Definition castString (v : option json) : option string :=
  match v with
  | None | Some JNull => None
  | Some (JStr s) => Some s
  | Some (JBool true) => Some "true"
  | Some (JBool false) => Some "false"
  | Some (JNum n) => Some (numberToString n)
  end.

(** Boolean: the values Mongoose converts to [true] and to [false]; [null]
    stays [null]; anything else is a cast error. *)
Definition castBoolean (v : json) : option (option bool) :=
  match v with
  | JNull => Some None
  | JBool b => Some (Some b)
  | JNum 1 => Some (Some true)
  | JNum 0 => Some (Some false)
  | JNum _ => None
  | JStr s =>
      if String.eqb s "true" || String.eqb s "1" || String.eqb s "yes"
      then Some (Some true)
      else if String.eqb s "false" || String.eqb s "0" || String.eqb s "no"
      then Some (Some false)
      else None
  end.

(** Number: [null] and the empty string give [null]; strings and booleans go
    through [Number(...)]; [NaN] is a cast error. *)
Definition castNumber (v : json) : option (option Z) :=
  match v with
  | JNull => Some None
  | JNum n => Some (Some n)
  | JBool true => Some (Some 1%Z)
  | JBool false => Some (Some 0%Z)
  | JStr "" => Some None
  | JStr s => match toNumber s with Some n => Some (Some n) | None => None end
  end.

(** The [required] validator of a String path: a non-empty string. *)
Definition required_string (path : string) (v : option string) : list string :=
  match v with
  | Some (String _ _) => []
  | _ => [path]
  end.

(** ** Models *)

(** Documents in memory, before validation. *)
Record UserDoc : Type := mkUserDoc {
  ud_id : ObjectId;
  ud_firstName : option string;
  ud_lastName : option string;
  ud_email : option string;
  ud_password : option string
}.

Record QuestionDoc : Type := mkQuestionDoc {
  qd_id : ObjectId;
  qd_title : option string;
  qd_description : option string;
  qd_resolved : option bool;
  qd_upvotes : option Z
}.

Record ReplyDoc : Type := mkReplyDoc {
  rd_id : ObjectId;
  rd_content : option string;
  rd_questionId : option ObjectId;
  rd_cast_errors : list string
}.

(** A question loaded from the store, with the cast errors that assignments
    have recorded on it. *)
Record LoadedQuestion : Type := mkLoaded {
  doc : Question;
  cast_errors : list string
}.

(** Constructing a document draws a fresh [_id]. *)
Definition fresh_id : M ObjectId :=
  fun st =>
    (Ok (nextId st),
     mkStore (users st) (questions st) (replies st) (N.succ (nextId st))).

(** [new User({ firstName, lastName, email, password })] *)
Definition new_User (firstName lastName email password : option json)
    : M UserDoc :=
  i <- fresh_id ;;
  ret (mkUserDoc i (castString firstName) (castString lastName)
         (castString email) (castString password)).

(** [new Question({ title, description })]: [resolved] and [upvotes] take
    their defaults. *)
Definition new_Question (title description : option json) : M QuestionDoc :=
  i <- fresh_id ;;
  ret (mkQuestionDoc i (castString title) (castString description)
         (Some false) (Some 0%Z)).

(** [new Reply({ content, questionId })] *)
Definition new_Reply (content : option json) (questionId : string)
    : M ReplyDoc :=
  i <- fresh_id ;;
  ret (match castObjectId questionId with
       | Some q => mkReplyDoc i (castString content) (Some q) []
       | None => mkReplyDoc i (castString content) None ["questionId"]
       end).

(** [User.findOne({ email })]: the filter value is cast to String; a [null]
    filter matches no stored user, since every stored email is a string. *)
Definition User_findOne (email_filter : option json) : M (option User) :=
  gets (fun st =>
    match castString email_filter with
    | Some e => List.find (fun u => String.eqb (email u) e) (users st)
    | None => None
    end).

(** [newUser.save()]: validation, then the insert under the unique index on
    [email]. *)
Definition User_save (d : UserDoc) : M unit :=
  fun st =>
    match ud_firstName d, ud_lastName d, ud_email d, ud_password d with
    | Some (String a f), Some (String b l), Some (String c e), Some (String p w) =>
        let e' := String c e in
        if existsb (fun u => String.eqb (email u) e') (users st)
        then (Throw (DuplicateKey "email"), st)
        else (Ok tt,
              mkStore (users st ++ [mkUser (ud_id d) (String a f) (String b l)
                                      e' (String p w)])
                      (questions st) (replies st) (nextId st))
    | f, l, e, p =>
        (Throw (ValidationError
                  (required_string "firstName" f ++ required_string "lastName" l
                   ++ required_string "email" e ++ required_string "password" p)),
         st)
    end.

(** [Question.find()] *)
Definition Question_find : M (list Question) := gets questions.

(** [question.save()] on a new document; returns the persisted question. *)
Definition Question_save_new (d : QuestionDoc) : M Question :=
  fun st =>
    match qd_title d, qd_description d with
    | Some (String a t), Some (String b ds) =>
        let q := mkQuestion (qd_id d) (String a t) (String b ds)
                   (qd_resolved d) (qd_upvotes d) in
        (Ok q, mkStore (users st) (questions st ++ [q]) (replies st) (nextId st))
    | t, ds =>
        (Throw (ValidationError
                  (required_string "title" t ++ required_string "description" ds)),
         st)
    end.

(** [Question.findById(id)] *)
Definition Question_findById (id : string) : M (option Question) :=
  match castObjectId id with
  | None => throw (CastError "_id")
  | Some i =>
      gets (fun st =>
              List.find (fun q => N.eqb (question_id q) i) (questions st))
  end.

(** [question.resolved = v] and [question.upvotes = v]: the value is cast; a
    failed cast is recorded on the document and surfaces at [save()]. *)
Definition set_resolved (v : json) (q : LoadedQuestion) : LoadedQuestion :=
  match castBoolean v with
  | Some r =>
      mkLoaded (mkQuestion (question_id (doc q)) (title (doc q))
                  (description (doc q)) r (upvotes (doc q)))
               (cast_errors q)
  | None => mkLoaded (doc q) (cast_errors q ++ ["resolved"])
  end.

Definition set_upvotes (v : json) (q : LoadedQuestion) : LoadedQuestion :=
  match castNumber v with
  | Some u =>
      mkLoaded (mkQuestion (question_id (doc q)) (title (doc q))
                  (description (doc q)) (resolved (doc q)) u)
               (cast_errors q)
  | None => mkLoaded (doc q) (cast_errors q ++ ["upvotes"])
  end.

(** Replace, in place, the stored question that has the document's [_id]. *)
Fixpoint replace_question (q : Question) (l : list Question) : list Question :=
  match l with
  | [] => []
  | q0 :: l' =>
      if N.eqb (question_id q0) (question_id q) then q :: l'
      else q0 :: replace_question q l'
  end.

(** [question.save()] on a loaded document. *)
Definition Question_save (q : LoadedQuestion) : M unit :=
  fun st =>
    match cast_errors q with
    | [] =>
        (Ok tt, mkStore (users st) (replace_question (doc q) (questions st))
                        (replies st) (nextId st))
    | paths => (Throw (ValidationError paths), st)
    end.

(** Remove the first stored question whose [_id] is [i]. *)
Fixpoint remove_question (i : ObjectId) (l : list Question) : list Question :=
  match l with
  | [] => []
  | q0 :: l' =>
      if N.eqb (question_id q0) i then l' else q0 :: remove_question i l'
  end.

(** [Question.findByIdAndDelete(id)] *)
Definition Question_findByIdAndDelete (id : string) : M (option Question) :=
  match castObjectId id with
  | None => throw (CastError "_id")
  | Some i =>
      fun st =>
        (Ok (List.find (fun q => N.eqb (question_id q) i) (questions st)),
         mkStore (users st) (remove_question i (questions st)) (replies st)
                 (nextId st))
  end.

(** [reply.save()]; returns the persisted reply. *)
Definition Reply_save (d : ReplyDoc) : M Reply :=
  fun st =>
    match rd_cast_errors d, rd_content d, rd_questionId d with
    | [], Some (String a c), Some q =>
        let r := mkReply (rd_id d) (String a c) q in
        (Ok r, mkStore (users st) (questions st) (replies st ++ [r]) (nextId st))
    | errs, c, _ =>
        (Throw (ValidationError (errs ++ required_string "content" c)), st)
    end.

(** [Reply.find({ questionId: id })] *)
Definition Reply_find (id : string) : M (list Reply) :=
  match castObjectId id with
  | None => throw (CastError "questionId")
  | Some i =>
      gets (fun st => List.filter (fun r => N.eqb (questionId r) i) (replies st))
  end.

(** ** Routes *)

(** [app.post('/signup')].  [salt] is the salt bcrypt draws for the digest. *)
Definition signup (salt : string) (body : gmap string json)
    : Store -> response * Store :=
  let firstName := body !! "firstName" in
  let lastName := body !! "lastName" in
  let email := body !! "email" in
  let password := body !! "password" in
  try_catch
    (existingUser <- User_findOne email ;;
     match existingUser with
     | Some _ => ret (res_status_json 400 (Message "Email already in use"))
     | None =>
         hashedPassword <- bcrypt_hash password 10 salt ;;
         newUser <- new_User firstName lastName email
                      (Some (JStr hashedPassword)) ;;
         _ <- User_save newUser ;;
         ret (res_status_json 201 (Message "User registered successfully!"))
     end)
    (fun error => res_status_json 500 (MessageError "Error during signup" error)).

(** [app.post('/login')] *)
Definition login (body : gmap string json) : Store -> response * Store :=
  let email := body !! "email" in
  let password' := body !! "password" in
  try_catch
    (user <- User_findOne email ;;
     match user with
     | None => ret (res_status_json 400 (Message "Invalid email or password"))
     | Some user =>
         isPasswordValid <- bcrypt_compare password' (password user) ;;
         if negb isPasswordValid
         then ret (res_status_json 400 (Message "Invalid email or password"))
         else ret (res_status_json 200 (MessageUser "Login successful" user))
     end)
    (fun error => res_status_json 500 (MessageError "Error during login" error)).

(** [app.get('/questions')] *)
Definition get_questions : Store -> response * Store :=
  try_catch
    (questions <- Question_find ;;
     ret (res_json (QuestionArray questions)))
    (fun err => res_status_json 500 (ErrMessage err)).

(** [app.post('/questions')] *)
Definition post_questions (body : gmap string json)
    : Store -> response * Store :=
  let title := body !! "title" in
  let description := body !! "description" in
  try_catch
    (question <- new_Question title description ;;
     question <- Question_save_new question ;;
     ret (res_status_json 201
            (MessageQuestion "Question created successfully!" question)))
    (fun err => res_status_json 400 (ErrMessage err)).

(** [app.patch('/questions/:id')] *)
Definition patch_questions_id (id : string) (body : gmap string json)
    : Store -> response * Store :=
  let resolved := body !! "resolved" in
  let upvotes := body !! "upvotes" in
  try_catch
    (question <- Question_findById id ;;
     match question with
     | None => ret (res_status_json 404 (Message "Question not found"))
     | Some question =>
         let question := mkLoaded question [] in
         let question :=
           match resolved with
           | Some v => set_resolved v question
           | None => question
           end in
         let question :=
           match upvotes with
           | Some v => set_upvotes v question
           | None => question
           end in
         _ <- Question_save question ;;
         ret (res_json
                (MessageQuestion "Question updated successfully!" (doc question)))
     end)
    (fun err => res_status_json 400 (ErrMessage err)).

(** [app.delete('/questions/:id')] *)
Definition delete_questions_id (id : string) : Store -> response * Store :=
  try_catch
    (question <- Question_findByIdAndDelete id ;;
     match question with
     | None => ret (res_status_json 404 (Message "Question not found"))
     | Some _ => ret (res_json (Message "Question deleted successfully!"))
     end)
    (fun err => res_status_json 500 (ErrMessage err)).

(** [app.post('/questions/:id/replies')] *)
Definition post_questions_id_replies (id : string) (body : gmap string json)
    : Store -> response * Store :=
  let content := body !! "content" in
  try_catch
    (question <- Question_findById id ;;
     match question with
     | None => ret (res_status_json 404 (Message "Question not found"))
     | Some _ =>
         reply <- new_Reply content id ;;
         reply <- Reply_save reply ;;
         ret (res_status_json 201 (MessageReply "Reply added successfully!" reply))
     end)
    (fun err => res_status_json 400 (ErrMessage err)).

(** [app.get('/questions/:id/replies')] *)
Definition get_questions_id_replies (id : string) : Store -> response * Store :=
  try_catch
    (replies <- Reply_find id ;;
     ret (res_json (ReplyArray replies)))
    (fun err => res_status_json 500 (ErrMessage err)).

(** ** The server as a transition system *)

Inductive request : Type :=
  | PostSignup (salt : string) (body : gmap string json)
  | PostLogin (body : gmap string json)
  | GetQuestions
  | PostQuestions (body : gmap string json)
  | PatchQuestion (id : string) (body : gmap string json)
  | DeleteQuestion (id : string)
  | PostReply (id : string) (body : gmap string json)
  | GetReplies (id : string).

Definition handle (r : request) : Store -> response * Store :=
  match r with
  | PostSignup salt body => signup salt body
  | PostLogin body => login body
  | GetQuestions => get_questions
  | PostQuestions body => post_questions body
  | PatchQuestion id body => patch_questions_id id body
  | DeleteQuestion id => delete_questions_id id
  | PostReply id body => post_questions_id_replies id body
  | GetReplies id => get_questions_id_replies id
  end.

(** The store after serving a sequence of requests, first to last. *)
Fixpoint run (rs : list request) (st : Store) : Store :=
  match rs with
  | [] => st
  | r :: rs' => run rs' (snd (handle r st))
  end.


(** ** Properties of stores and of requests *)

(** Some stored user has the email [e]. *)
Definition registered (e : string) (st : Store) : Prop :=
  exists u, u ∈ users st /\ email u = e.

(** Some stored question has the identifier [i]. *)
Definition has_question (i : ObjectId) (st : Store) : Prop :=
  exists q, q ∈ questions st /\ question_id q = i.

(** What holds of every store the server can reach: emails are unique,
    stored passwords are digests, question identifiers are distinct, and
    every identifier in use was drawn from the generator. *)
Record store_ok (st : Store) : Prop := mk_store_ok {
  unique_emails : NoDup (email <$> users st);
  passwords_hashed :
    forall u, u ∈ users st -> exists p salt, password u = digest p 10 salt;
  unique_question_ids : NoDup (question_id <$> questions st);
  question_ids_issued :
    forall q, q ∈ questions st -> (question_id q < nextId st)%N;
  reply_tags_issued :
    forall r, r ∈ replies st -> (questionId r < nextId st)%N
}.

(** A signup body whose four fields are strings, the three stored as given
    being non-empty (the password is stored as its digest). *)
Definition valid_signup (body : gmap string json)
    (fn ln e p : string) : Prop :=
  body !! "firstName" = Some (JStr fn) /\ body !! "lastName" = Some (JStr ln) /\
  body !! "email" = Some (JStr e) /\ body !! "password" = Some (JStr p) /\
  fn <> "" /\ ln <> "" /\ e <> "".

(** The identifier [i] was issued and no stored question carries it. *)
Definition gone (i : ObjectId) (st : Store) : Prop :=
  (i < nextId st)%N /\ forall q, q ∈ questions st -> question_id q <> i.

(** The loaded document after the two conditional assignments of the update
    route. *)
Definition assigned (body : gmap string json) (q : Question) : LoadedQuestion :=
  let l := mkLoaded q [] in
  let l := match body !! "resolved" with Some v => set_resolved v l | None => l end in
  match body !! "upvotes" with Some v => set_upvotes v l | None => l end.

(** The stored question with identifier [i], as [findById] reads it. *)
Definition lookup_question (i : ObjectId) (st : Store) : option Question :=
  List.find (fun q => N.eqb (question_id q) i) (questions st).

(** The stored replies tagged with the question identifier [i]. *)
Definition replies_of (i : ObjectId) (st : Store) : list Reply :=
  List.filter (fun r => N.eqb (questionId r) i) (replies st).

(** How one request may change the store: the generator only advances; at
    most one user with an unregistered email and a digest as password is
    appended; questions are kept, removed, or one with the fresh identifier
    is appended; at most one reply, tagged with a stored question, is
    appended. *)
Definition step_ok (st st' : Store) : Prop :=
  (nextId st <= nextId st')%N /\
  (users st' = users st \/
   exists u, users st' = (users st ++ [u])%list /\ ~ registered (email u) st /\
             exists p salt, password u = digest p 10 salt) /\
  ((question_id <$> questions st') `sublist_of` (question_id <$> questions st) \/
   exists q, questions st' = (questions st ++ [q])%list /\
             question_id q = nextId st /\ (nextId st < nextId st')%N) /\
  (replies st' = replies st \/
   exists r, replies st' = (replies st ++ [r])%list /\ has_question (questionId r) st).

End Forum.

(** ** Sample data, on which the handlers are run *)

Definition alice : gmap string json :=
  {[ "firstName" := JStr "Alice"; "lastName" := JStr "Liddell";
     "email" := JStr "alice@example.org"; "password" := JStr "rabbit" ]}.

Definition alice_login : gmap string json :=
  {[ "email" := JStr "alice@example.org"; "password" := JStr "rabbit" ]}.

Definition bob : gmap string json :=
  {[ "firstName" := JStr "Bob"; "lastName" := JStr "Builder";
     "email" := JStr "bob@example.org"; "password" := JStr "hammer" ]}.

(** A signup body without the [password] key. *)
Definition no_password : gmap string json :=
  {[ "firstName" := JStr "Alice"; "lastName" := JStr "Liddell";
     "email" := JStr "alice@example.org" ]}.

Definition alice_user : User :=
  mkUser 0 "Alice" "Liddell" "alice@example.org" "$na$rabbit".

(** The store after Alice's signup with salt [na] on the empty store. *)
Definition alice_store : Store := mkStore [alice_user] [] [] 1.

Definition question_TD : gmap string json :=
  {[ "title" := JStr "T"; "description" := JStr "D" ]}.

Definition resolve_only : gmap string json := {[ "resolved" := JBool true ]}.

Definition say_hi : gmap string json := {[ "content" := JStr "hi" ]}.

Definition id0 : string := "000000000000000000000000".

Definition question0 : Question := mkQuestion 0 "T" "D" (Some false) (Some 7%Z).

Definition one_question : Store := mkStore [] [question0] [] 1.

(** A question is asked, answered, then deleted. *)
Definition asked_answered_deleted : list request :=
  [PostQuestions question_TD; PostReply id0 say_hi; DeleteQuestion id0].

(** The store those three requests leave behind, from the empty store. *)
Definition orphan_store : Store := mkStore [] [] [mkReply 1 "hi" 0] 2.

Section Properties.
Context `{Collaborators}.

(** ** Lookups *)

Lemma find_email_None (e : string) (l : list User) :
  List.find (fun u => String.eqb (email u) e) l = None <->
  forall u, u ∈ l -> email u <> e.
Proof.
  induction l as [|u0 l IH]; simpl.
  - split; [intros _ u Hu; inversion Hu | done].
  - destruct (String.eqb_spec (email u0) e) as [E|E].
    + split; [done | intros Hall; exfalso; apply (Hall u0); [left | done]].
    + rewrite IH. split.
      * intros Hall u Hu. apply elem_of_cons in Hu as [->|Hu]; auto.
      * intros Hall u Hu. apply Hall. by right.
Qed.

Lemma find_email_Some (e : string) (l : list User) (u : User) :
  List.find (fun u => String.eqb (email u) e) l = Some u ->
  u ∈ l /\ email u = e.
Proof.
  induction l as [|u0 l IH]; simpl; [done|].
  destruct (String.eqb_spec (email u0) e) as [E|E].
  - intros [= <-]. split; [left | done].
  - intros Hf. destruct (IH Hf) as [Hin He]. split; [by right | done].
Qed.

Lemma find_email_unique (e : string) (l : list User) (u : User) :
  NoDup (email <$> l) -> u ∈ l -> email u = e ->
  List.find (fun u => String.eqb (email u) e) l = Some u.
Proof.
  induction l as [|u0 l IH]; simpl; intros Hnd Hin He.
  - inversion Hin.
  - apply NoDup_cons in Hnd as [Hnotin Hnd].
    apply elem_of_cons in Hin as [->|Hin].
    + rewrite <- He. by rewrite String.eqb_refl.
    + destruct (String.eqb_spec (email u0) e) as [E|E]; [|by apply IH].
      exfalso. apply Hnotin. rewrite E, <- He.
      by apply list_elem_of_fmap_2.
Qed.

Lemma existsb_email_false (e : string) (l : list User) :
  (forall u, u ∈ l -> email u <> e) ->
  existsb (fun u => String.eqb (email u) e) l = false.
Proof.
  induction l as [|u0 l IH]; simpl; intros Hall; [done|].
  destruct (String.eqb_spec (email u0) e) as [E|E].
  - exfalso. apply (Hall u0); [left | done].
  - apply IH. intros u Hu. apply Hall. by right.
Qed.

(** ** Signup and login, case by case *)

Ltac unfold_monad :=
  unfold try_catch, bind, ret, throw, gets, fresh_id,
    res_status_json, res_json in *.

Lemma User_findOne_eq (v : option json) (st : Store) :
  User_findOne v st =
  (Ok match castString v with
      | Some e => List.find (fun u => String.eqb (email u) e) (users st)
      | None => None
      end, st).
Proof. reflexivity. Qed.

Lemma signup_conflict (salt : string) (body : gmap string json) (st : Store)
    (e : string) :
  castString (body !! "email") = Some e -> registered e st ->
  signup salt body st =
  (res_status_json 400 (Message "Email already in use"), st).
Proof.
  intros Hc (u & Hin & He). unfold signup, try_catch, bind.
  rewrite User_findOne_eq, Hc.
  destruct (List.find _ (users st)) as [u'|] eqn:Hf; [done|].
  exfalso. by apply (proj1 (find_email_None e (users st)) Hf u).
Qed.

(** The three outcomes of a signup: the email is taken; something throws
    and no collection changes; a user is appended. *)
Lemma signup_cases (salt : string) (body : gmap string json) (st : Store) :
  (exists e, castString (body !! "email") = Some e /\ registered e st /\
     signup salt body st =
     (res_status_json 400 (Message "Email already in use"), st))
  \/ ((forall e, castString (body !! "email") = Some e -> ~ registered e st) /\
      exists err st',
        signup salt body st =
        (res_status_json 500 (MessageError "Error during signup" err), st') /\
        users st' = users st /\ questions st' = questions st /\
        replies st' = replies st /\ (nextId st <= nextId st')%N)
  \/ (exists u p,
        signup salt body st =
        (res_status_json 201 (Message "User registered successfully!"),
         mkStore (users st ++ [u]) (questions st) (replies st)
                 (N.succ (nextId st))) /\
        body !! "password" = Some (JStr p) /\
        u = mkUser (nextId st) (firstName u) (lastName u) (email u)
              (digest p 10 salt) /\
        castString (body !! "firstName") = Some (firstName u) /\
        castString (body !! "lastName") = Some (lastName u) /\
        castString (body !! "email") = Some (email u) /\
        firstName u <> "" /\ lastName u <> "" /\ email u <> "" /\
        ~ registered (email u) st).
Proof.
  destruct (castString (body !! "email")) as [e|] eqn:Hc.
  - destruct (List.find (fun u => String.eqb (email u) e) (users st))
      as [u'|] eqn:Hf.
    + left. exists e. apply find_email_Some in Hf as [Hin He].
      assert (registered e st) by (by exists u').
      repeat split; [done|]. by apply signup_conflict with e.
    + right. pose proof (proj1 (find_email_None e (users st)) Hf) as Hfree.
      assert (Hnr : forall e', Some e = Some e' -> ~ registered e' st).
      { intros e' [= <-] (u & Hin & He). by apply (Hfree u). }
      unfold signup, new_User, try_catch, bind.
      rewrite User_findOne_eq, Hc, Hf.
      destruct (body !! "password") as [[| | |p]|] eqn:Hp; simpl;
        try (left; split; [done|]; eexists _, _;
             split; [reflexivity|]; simpl; repeat split; lia).
      unfold User_save; simpl.
      pose proof (digest_nonempty p 10 salt) as Hd.
      destruct (digest p 10 salt) as [|dc ds] eqn:Hdig; [done|].
      destruct (castString (body !! "firstName")) as [[|fc fs]|] eqn:Hfn;
        simpl;
        try (left; split; [done|]; eexists _, _;
             split; [reflexivity|]; simpl; repeat split; lia).
      destruct (castString (body !! "lastName")) as [[|lc ls]|] eqn:Hln;
        simpl;
        try (left; split; [done|]; eexists _, _;
             split; [reflexivity|]; simpl; repeat split; lia).
      destruct e as [|ec es]; simpl;
        try (left; split; [done|]; eexists _, _;
             split; [reflexivity|]; simpl; repeat split; lia).
      rewrite (existsb_email_false _ _ Hfree).
      right.
      exists (mkUser (nextId st) (String fc fs) (String lc ls) (String ec es)
                (String dc ds)), p.
      simpl. repeat split; try done; [by rewrite Hdig|].
      intros (u & Hin & He). by apply (Hfree u).
  - right. left. split; [done|].
    unfold signup, new_User, try_catch, bind. rewrite User_findOne_eq, Hc.
    destruct (body !! "password") as [[| | |p]|] eqn:Hp; simpl;
      try (eexists _, _; split; [reflexivity|]; simpl; repeat split; lia).
    unfold User_save; simpl.
    destruct (castString (body !! "firstName")) as [[|fc fs]|];
    destruct (castString (body !! "lastName")) as [[|lc ls]|]; simpl;
      eexists _, _; (split; [reflexivity|]); simpl; repeat split; lia.
Qed.

Lemma login_eq (body : gmap string json) (st : Store) :
  login body st =
  (match castString (body !! "email") with
   | Some e =>
       match List.find (fun u => String.eqb (email u) e) (users st) with
       | Some u =>
           match body !! "password" with
           | Some (JStr p) =>
               if matches p (password u)
               then res_status_json 200 (MessageUser "Login successful" u)
               else res_status_json 400 (Message "Invalid email or password")
           | _ =>
               res_status_json 500
                 (MessageError "Error during login" BcryptArguments)
           end
       | None => res_status_json 400 (Message "Invalid email or password")
       end
   | None => res_status_json 400 (Message "Invalid email or password")
   end, st).
Proof.
  unfold login, try_catch, bind. rewrite User_findOne_eq.
  destruct (castString (body !! "email")) as [e|]; [|done].
  destruct (List.find _ (users st)) as [u|]; [|done].
  destruct (body !! "password") as [[| | |p]|]; try done.
  simpl. by destruct (matches p (password u)).
Qed.

(** C1. For an email and a password given as strings, login answers 200
    exactly when a stored user has that email and the password matches the
    stored digest; in every other case the answer is status 400 with the
    one message 'Invalid email or password', whether the email is unknown
    or the password does not match.  The store is left as it was. *)
Theorem login_succeeds_iff (st : Store) (body : gmap string json)
    (e p : string) :
  NoDup (email <$> users st) ->
  body !! "email" = Some (JStr e) ->
  body !! "password" = Some (JStr p) ->
  snd (login body st) = st /\
  (status (fst (login body st)) = 200 <->
   exists u, u ∈ users st /\ email u = e /\ matches p (password u) = true) /\
  (forall u, u ∈ users st -> email u = e -> matches p (password u) = true ->
   fst (login body st) = res_status_json 200 (MessageUser "Login successful" u)) /\
  ((forall u, u ∈ users st -> email u <> e) ->
   fst (login body st) =
   res_status_json 400 (Message "Invalid email or password")) /\
  (forall u, u ∈ users st -> email u = e -> matches p (password u) = false ->
   fst (login body st) =
   res_status_json 400 (Message "Invalid email or password")).
Proof.
  intros Hnd He Hp. rewrite login_eq, He, Hp. simpl.
  split; [done|].
  destruct (List.find (fun u => String.eqb (email u) e) (users st))
    as [u0|] eqn:Hf.
  - pose proof (find_email_Some _ _ _ Hf) as [Hin0 He0].
    assert (Hsame : forall u, u ∈ users st -> email u = e -> u = u0).
    { intros u Hin Hu.
      pose proof (find_email_unique e (users st) u Hnd Hin Hu) as Hf'.
      congruence. }
    destruct (matches p (password u0)) eqn:Hm; simpl.
    + split; [split; [intros _; by exists u0 | done]|].
      split; [intros u Hin Hu _; by rewrite (Hsame u Hin Hu)|].
      split; [intros Hno; exfalso; by apply (Hno u0)|].
      intros u Hin Hu Hmu. rewrite (Hsame u Hin Hu) in Hmu. congruence.
    + split.
      { split; [done|]. intros (u & Hin & Hu & Hmu).
        rewrite (Hsame u Hin Hu) in Hmu. congruence. }
      split; [|done].
      intros u Hin Hu Hmu. rewrite (Hsame u Hin Hu) in Hmu. congruence.
  - pose proof (proj1 (find_email_None e (users st)) Hf) as Hfree. simpl.
    split.
    { split; [done|]. intros (u & Hin & Hu & _). exfalso. by apply (Hfree u). }
    split; [|done].
    intros u Hin Hu. exfalso. by apply (Hfree u).
Qed.

(** ** Question and reply routes, case by case *)

Lemma store_eta (st : Store) :
  mkStore (users st) (questions st) (replies st) (nextId st) = st.
Proof. by destruct st. Qed.

Lemma get_questions_eq (st : Store) :
  get_questions st = (res_json (QuestionArray (questions st)), st).
Proof. reflexivity. Qed.

Lemma post_questions_eq (body : gmap string json) (st : Store) :
  post_questions body st =
  match castString (body !! "title"), castString (body !! "description") with
  | Some (String a t), Some (String b d) =>
      let q := mkQuestion (nextId st) (String a t) (String b d)
                 (Some false) (Some 0%Z) in
      (res_status_json 201 (MessageQuestion "Question created successfully!" q),
       mkStore (users st) (questions st ++ [q]) (replies st)
               (N.succ (nextId st)))
  | t, d =>
      (res_status_json 400
         (ErrMessage (ValidationError
            (required_string "title" t ++ required_string "description" d))),
       mkStore (users st) (questions st) (replies st) (N.succ (nextId st)))
  end.
Proof.
  unfold post_questions, new_Question, Question_save_new. unfold_monad. simpl.
  destruct (castString (body !! "title")) as [[|a t]|];
    destruct (castString (body !! "description")) as [[|b d]|]; reflexivity.
Qed.

Lemma patch_questions_id_eq (id : string) (body : gmap string json)
    (st : Store) :
  patch_questions_id id body st =
  match castObjectId id with
  | None => (res_status_json 400 (ErrMessage (CastError "_id")), st)
  | Some i =>
      match lookup_question i st with
      | None => (res_status_json 404 (Message "Question not found"), st)
      | Some q0 =>
          match cast_errors (assigned body q0) with
          | [] =>
              (res_json (MessageQuestion "Question updated successfully!"
                           (doc (assigned body q0))),
               mkStore (users st)
                       (replace_question (doc (assigned body q0)) (questions st))
                       (replies st) (nextId st))
          | paths => (res_status_json 400 (ErrMessage (ValidationError paths)), st)
          end
      end
  end.
Proof.
  unfold patch_questions_id, Question_findById, Question_save, lookup_question,
    assigned.
  unfold_monad.
  destruct (castObjectId id) as [i|]; [|reflexivity].
  destruct (List.find _ (questions st)) as [q0|]; [|reflexivity].
  match goal with |- context [cast_errors ?l] => destruct (cast_errors l) end;
    reflexivity.
Qed.

Lemma delete_questions_id_eq (id : string) (st : Store) :
  delete_questions_id id st =
  match castObjectId id with
  | None => (res_status_json 500 (ErrMessage (CastError "_id")), st)
  | Some i =>
      (match lookup_question i st with
       | None => res_status_json 404 (Message "Question not found")
       | Some _ => res_json (Message "Question deleted successfully!")
       end,
       mkStore (users st) (remove_question i (questions st)) (replies st)
               (nextId st))
  end.
Proof.
  unfold delete_questions_id, Question_findByIdAndDelete, lookup_question.
  unfold_monad.
  destruct (castObjectId id) as [i|]; [|reflexivity].
  destruct (List.find _ (questions st)); reflexivity.
Qed.

Lemma post_questions_id_replies_eq (id : string) (body : gmap string json)
    (st : Store) :
  post_questions_id_replies id body st =
  match castObjectId id with
  | None => (res_status_json 400 (ErrMessage (CastError "_id")), st)
  | Some i =>
      match lookup_question i st with
      | None => (res_status_json 404 (Message "Question not found"), st)
      | Some _ =>
          match castString (body !! "content") with
          | Some (String a c) =>
              let r := mkReply (nextId st) (String a c) i in
              (res_status_json 201 (MessageReply "Reply added successfully!" r),
               mkStore (users st) (questions st) (replies st ++ [r])
                       (N.succ (nextId st)))
          | c =>
              (res_status_json 400
                 (ErrMessage (ValidationError (required_string "content" c))),
               mkStore (users st) (questions st) (replies st)
                       (N.succ (nextId st)))
          end
      end
  end.
Proof.
  unfold post_questions_id_replies, Question_findById, new_Reply, Reply_save,
    lookup_question.
  unfold_monad.
  destruct (castObjectId id) as [i|] eqn:Hi; [|reflexivity].
  destruct (List.find _ (questions st)); [|reflexivity].
  simpl. destruct (castString (body !! "content")) as [[|a c]|]; reflexivity.
Qed.

Lemma get_questions_id_replies_eq (id : string) (st : Store) :
  get_questions_id_replies id st =
  match castObjectId id with
  | None => (res_status_json 500 (ErrMessage (CastError "questionId")), st)
  | Some i => (res_json (ReplyArray (replies_of i st)), st)
  end.
Proof.
  unfold get_questions_id_replies, Reply_find, replies_of. unfold_monad.
  destruct (castObjectId id); reflexivity.
Qed.

(** ** The question collection *)

Lemma find_id_None (i : ObjectId) (l : list Question) :
  List.find (fun q => N.eqb (question_id q) i) l = None <->
  forall q, q ∈ l -> question_id q <> i.
Proof.
  induction l as [|q0 l IH]; simpl.
  - split; [intros _ q Hq; inversion Hq | done].
  - destruct (N.eqb_spec (question_id q0) i) as [E|E].
    + split; [done | intros Hall; exfalso; apply (Hall q0); [left | done]].
    + rewrite IH. split.
      * intros Hall q Hq. apply elem_of_cons in Hq as [->|Hq]; auto.
      * intros Hall q Hq. apply Hall. by right.
Qed.

Lemma find_id_Some (i : ObjectId) (l : list Question) (q : Question) :
  List.find (fun q => N.eqb (question_id q) i) l = Some q ->
  q ∈ l /\ question_id q = i.
Proof.
  induction l as [|q0 l IH]; simpl; [done|].
  destruct (N.eqb_spec (question_id q0) i) as [E|E].
  - intros [= <-]. split; [left | done].
  - intros Hf. destruct (IH Hf) as [Hin He]. split; [by right | done].
Qed.

Lemma replace_question_fmap {A : Type} (f : Question -> A)
    (q q0 : Question) (l : list Question) :
  List.find (fun x => N.eqb (question_id x) (question_id q)) l = Some q0 ->
  f q = f q0 ->
  f <$> replace_question q l = f <$> l.
Proof.
  induction l as [|x l IH]; [done|].
  cbn [replace_question List.find].
  destruct (N.eqb (question_id x) (question_id q)).
  - intros [= ->] Hf. rewrite !fmap_cons. by rewrite Hf.
  - intros Hfind Hf. rewrite !fmap_cons. f_equal. by apply IH.
Qed.

Lemma replace_question_find (q q0 : Question) (l : list Question) :
  List.find (fun x => N.eqb (question_id x) (question_id q)) l = Some q0 ->
  List.find (fun x => N.eqb (question_id x) (question_id q))
    (replace_question q l) = Some q.
Proof.
  induction l as [|x l IH]; simpl; [done|].
  destruct (N.eqb (question_id x) (question_id q)) eqn:E.
  - intros _. simpl. by rewrite N.eqb_refl.
  - intros Hfind. simpl. rewrite E. by apply IH.
Qed.

Lemma replace_question_elem (q q0 : Question) (l : list Question) :
  List.find (fun x => N.eqb (question_id x) (question_id q)) l = Some q0 ->
  q ∈ replace_question q l.
Proof.
  intros Hf. apply replace_question_find in Hf.
  by apply find_id_Some in Hf as [Hin _].
Qed.

Lemma remove_question_absent (i : ObjectId) (l : list Question) :
  (forall q, q ∈ l -> question_id q <> i) -> remove_question i l = l.
Proof.
  induction l as [|x l IH]; simpl; intros Hall; [done|].
  destruct (N.eqb_spec (question_id x) i) as [E|E].
  - exfalso. apply (Hall x); [left | done].
  - f_equal. apply IH. intros q Hq. apply Hall. by right.
Qed.

Lemma remove_question_sublist (i : ObjectId) (l : list Question) :
  remove_question i l `sublist_of` l.
Proof.
  induction l as [|x l IH]; simpl; [done|].
  destruct (N.eqb (question_id x) i).
  - by apply sublist_cons.
  - by apply sublist_skip.
Qed.

Lemma remove_question_gone (i : ObjectId) (l : list Question) :
  NoDup (question_id <$> l) ->
  forall q, q ∈ remove_question i l -> question_id q <> i.
Proof.
  induction l as [|x l IH]; simpl; intros Hnd q Hq; [inversion Hq|].
  apply NoDup_cons in Hnd as [Hx Hnd].
  destruct (N.eqb_spec (question_id x) i) as [E|E].
  - intros Hqi. apply Hx. rewrite E, <- Hqi. by apply list_elem_of_fmap_2.
  - apply elem_of_cons in Hq as [->|Hq]; [done | by apply IH].
Qed.

Lemma assigned_frame (body : gmap string json) (q : Question) :
  question_id (doc (assigned body q)) = question_id q /\
  title (doc (assigned body q)) = title q /\
  description (doc (assigned body q)) = description q.
Proof.
  unfold assigned, set_resolved, set_upvotes.
  destruct (body !! "resolved") as [v|]; destruct (body !! "upvotes") as [w|];
    simpl;
    repeat match goal with
           | |- context [castBoolean ?x] => destruct (castBoolean x)
           | |- context [castNumber ?x] => destruct (castNumber x)
           end; done.
Qed.

(** A key that the body lacks leaves its field as it was. *)
Lemma assigned_absent (body : gmap string json) (q : Question) :
  (body !! "resolved" = None -> resolved (doc (assigned body q)) = resolved q) /\
  (body !! "upvotes" = None -> upvotes (doc (assigned body q)) = upvotes q).
Proof.
  unfold assigned, set_resolved, set_upvotes.
  destruct (body !! "resolved") as [v|]; destruct (body !! "upvotes") as [w|];
    simpl;
    repeat match goal with
           | |- context [castBoolean ?x] => destruct (castBoolean x)
           | |- context [castNumber ?x] => destruct (castNumber x)
           end; done.
Qed.

(** ** One request, then many *)

Lemma step_ok_same (st st' : Store) :
  users st' = users st -> questions st' = questions st ->
  replies st' = replies st -> (nextId st <= nextId st')%N ->
  step_ok st st'.
Proof.
  intros Hu Hq Hr Hn. repeat split; [done | by left | | by left].
  left. by rewrite Hq.
Qed.

Lemma handle_step (r : request) (st : Store) : step_ok st (snd (handle r st)).
Proof.
  destruct r as [salt body|body| |body|id body|id|id body|id]; cbn [handle].
  - destruct (signup_cases salt body st)
      as [(e & _ & _ & ->)|[(_ & err & st' & -> & Hu & Hq & Hr & Hn)
                           |(u & p & -> & _ & Hu & _ & _ & _ & _ & _ & _ & Hnr)]];
      simpl.
    + by apply step_ok_same.
    + by apply step_ok_same.
    + repeat split; simpl; [lia | | by left | by left].
      right. exists u. repeat split; [done|].
      exists p, salt. by rewrite Hu.
  - rewrite login_eq. by apply step_ok_same.
  - rewrite get_questions_eq. by apply step_ok_same.
  - rewrite post_questions_eq.
    destruct (castString (body !! "title")) as [[|a t]|];
      destruct (castString (body !! "description")) as [[|b d]|]; simpl;
      try (apply step_ok_same; simpl; [done..|lia]).
    repeat split; simpl; [lia | by left | | by left].
    right. eexists. repeat split; simpl; lia.
  - rewrite patch_questions_id_eq.
    destruct (castObjectId id) as [i|]; [|by apply step_ok_same].
    destruct (lookup_question i st) as [q0|] eqn:Hf; [|by apply step_ok_same].
    destruct (cast_errors (assigned body q0)); [|by apply step_ok_same].
    repeat split; simpl; [done | by left | | by left].
    left. destruct (assigned_frame body q0) as (Hid & _ & _).
    apply find_id_Some in Hf as Hq0. destruct Hq0 as [_ Hq0].
    rewrite (replace_question_fmap question_id _ q0); [done| |done].
    unfold lookup_question in Hf. by rewrite Hid, Hq0.
  - rewrite delete_questions_id_eq.
    destruct (castObjectId id) as [i|]; [|by apply step_ok_same].
    repeat split; simpl; [done | by left | | by left].
    left. apply fmap_sublist, remove_question_sublist.
  - rewrite post_questions_id_replies_eq.
    destruct (castObjectId id) as [i|]; [|by apply step_ok_same].
    destruct (lookup_question i st) as [q0|] eqn:Hf; [|by apply step_ok_same].
    apply find_id_Some in Hf.
    destruct (castString (body !! "content")) as [[|a c]|]; simpl;
      try (apply step_ok_same; simpl; [done..|lia]).
    repeat split; simpl; [lia | by left | by left |].
    right. eexists. split; [done|]. by exists q0.
  - rewrite get_questions_id_replies_eq.
    destruct (castObjectId id); by apply step_ok_same.
Qed.

Lemma step_ok_store_ok (st st' : Store) :
  step_ok st st' -> store_ok st -> store_ok st'.
Proof.
  intros (Hn & Hu & Hq & Hr) [Hue Hph Huq Hqi Hri].
  assert (Hids : forall q, q ∈ questions st' -> (question_id q < nextId st')%N).
  { intros q Hin. destruct Hq as [Hsub|(q1 & Hq1 & Hid & Hlt)].
    - assert (question_id q ∈ question_id <$> questions st) as Hq0.
      { eapply elem_of_sublist; [|exact Hsub]. by apply list_elem_of_fmap_2. }
      apply list_elem_of_fmap in Hq0 as (q0 & -> & Hin0).
      specialize (Hqi q0 Hin0). lia.
    - rewrite Hq1 in Hin. apply elem_of_app in Hin as [Hin|Hin].
      + specialize (Hqi q Hin). lia.
      + apply list_elem_of_singleton in Hin as ->. lia. }
  split; [| | |exact Hids|].
  - destruct Hu as [->|(u & -> & Hnr & _)]; [done|].
    rewrite fmap_app. apply NoDup_app. split; [done|]. split.
    + intros e He Hu. apply list_elem_of_singleton in Hu as ->.
      apply list_elem_of_fmap in He as (u0 & He & Hin0).
      apply Hnr. by exists u0.
    + apply NoDup_singleton.
  - intros u Hin. destruct Hu as [Hu|(u1 & Hu & _ & Hp)]; rewrite Hu in Hin.
    + by apply Hph.
    + apply elem_of_app in Hin as [Hin|Hin]; [by apply Hph|].
      by apply list_elem_of_singleton in Hin as ->.
  - destruct Hq as [Hsub|(q1 & -> & Hid & Hlt)].
    + by eapply sublist_NoDup.
    + rewrite fmap_app. apply NoDup_app. split; [done|]. split.
      * intros i Hi Hi1. apply list_elem_of_singleton in Hi1 as ->.
        apply list_elem_of_fmap in Hi as (q0 & Hi & Hin0).
        specialize (Hqi q0 Hin0). simpl in Hi. lia.
      * apply NoDup_singleton.
  - intros r Hin. destruct Hr as [Hr|(r1 & Hr & q0 & Hin0 & Hq0)];
      rewrite Hr in Hin.
    + specialize (Hri r Hin). lia.
    + apply elem_of_app in Hin as [Hin|Hin].
      * specialize (Hri r Hin). lia.
      * apply list_elem_of_singleton in Hin as ->.
        specialize (Hqi q0 Hin0). lia.
Qed.

Lemma empty_store_ok : store_ok empty_store.
Proof.
  split; simpl; try apply NoDup_nil_2; intros x Hx; inversion Hx.
Qed.

Lemma run_store_ok (rs : list request) (st : Store) :
  store_ok st -> store_ok (run rs st).
Proof.
  revert st. induction rs as [|r rs IH]; simpl; intros st Hok; [done|].
  apply IH. eapply step_ok_store_ok; [apply handle_step | done].
Qed.

Lemma step_ok_registered (e : string) (st st' : Store) :
  step_ok st st' -> registered e st -> registered e st'.
Proof.
  intros (_ & Hu & _) (u & Hin & He). exists u. split; [|done].
  destruct Hu as [->|(u1 & -> & _)]; [done|].
  apply elem_of_app. by left.
Qed.

Lemma run_registered (e : string) (rs : list request) (st : Store) :
  registered e st -> registered e (run rs st).
Proof.
  revert st. induction rs as [|r rs IH]; simpl; intros st Hreg; [done|].
  apply IH. eapply step_ok_registered; [apply handle_step | done].
Qed.

Lemma step_ok_gone (i : ObjectId) (st st' : Store) :
  step_ok st st' -> gone i st -> gone i st'.
Proof.
  intros (Hn & _ & Hq & _) [Hlt Hno]. split; [lia|].
  intros q Hin. destruct Hq as [Hsub|(q1 & Hq1 & Hid & _)].
  - assert (question_id q ∈ question_id <$> questions st) as Hq0.
    { eapply elem_of_sublist; [|exact Hsub]. by apply list_elem_of_fmap_2. }
    apply list_elem_of_fmap in Hq0 as (q0 & -> & Hin0). by apply Hno.
  - rewrite Hq1 in Hin. apply elem_of_app in Hin as [Hin|Hin].
    + by apply Hno.
    + apply list_elem_of_singleton in Hin as ->. lia.
Qed.

Lemma run_gone (i : ObjectId) (rs : list request) (st : Store) :
  gone i st -> gone i (run rs st).
Proof.
  revert st. induction rs as [|r rs IH]; simpl; intros st Hg; [done|].
  apply IH. eapply step_ok_gone; [apply handle_step | done].
Qed.

(** ** Users *)

Lemma signup_fresh (st : Store) (salt : string) (body : gmap string json)
    (fn ln e p : string) :
  valid_signup body fn ln e p -> ~ registered e st ->
  signup salt body st =
  (res_status_json 201 (Message "User registered successfully!"),
   mkStore (users st ++ [mkUser (nextId st) fn ln e (digest p 10 salt)])
           (questions st) (replies st) (N.succ (nextId st))).
Proof.
  intros (Hfn & Hln & He & Hp & Nfn & Nln & Ne) Hnr.
  assert (Hfree : forall u, u ∈ users st -> email u <> e).
  { intros u Hin Hu. apply Hnr. by exists u. }
  unfold signup, new_User, User_save, try_catch, bind.
  rewrite User_findOne_eq, Hfn, Hln, He, Hp. simpl.
  rewrite (proj2 (find_email_None e (users st)) Hfree). simpl.
  pose proof (digest_nonempty p 10 salt) as Hd.
  destruct (digest p 10 salt) as [|dc ds]; [done|].
  destruct fn as [|fc fs]; [done|]. destruct ln as [|lc ls]; [done|].
  destruct e as [|ec es]; [done|].
  by rewrite (existsb_email_false _ _ Hfree).
Qed.

(** C2. A signup whose four fields are strings (names and email non-empty)
    and whose email is not registered succeeds with 201 and appends the
    user, stored with the digest of the password; after it, whatever
    requests are served in between, every signup with that email is
    answered 400 'Email already in use' and changes nothing; and emails
    stay pairwise distinct in every store reached, from this one or from
    the empty store. *)
Theorem signup_once_then_conflict (st : Store) (salt : string)
    (body : gmap string json) (fn ln e p : string) :
  store_ok st ->
  valid_signup body fn ln e p ->
  ~ registered e st ->
  fst (signup salt body st) =
    res_status_json 201 (Message "User registered successfully!") /\
  users (snd (signup salt body st)) =
    (users st ++ [mkUser (nextId st) fn ln e (digest p 10 salt)])%list /\
  (forall rs salt' body',
     body' !! "email" = Some (JStr e) ->
     signup salt' body' (run rs (snd (signup salt body st))) =
     (res_status_json 400 (Message "Email already in use"),
      run rs (snd (signup salt body st)))) /\
  (forall rs, NoDup (email <$> users (run rs (snd (signup salt body st))))) /\
  (forall rs, NoDup (email <$> users (run rs empty_store))).
Proof.
  intros Hok Hv Hnr. rewrite (signup_fresh st salt body fn ln e p Hv Hnr).
  cbn [fst snd users].
  split; [done|]. split; [done|]. split; [|split].
  - intros rs salt' body' He. apply signup_conflict with e.
    + by rewrite He.
    + apply run_registered.
      exists (mkUser (nextId st) fn ln e (digest p 10 salt)). split; [|done].
      cbn [users]. apply elem_of_app. right. by apply list_elem_of_singleton.
  - intros rs. apply unique_emails, run_store_ok.
    pose proof (handle_step (PostSignup salt body) st) as Hstep.
    cbn [handle] in Hstep.
    rewrite (signup_fresh st salt body fn ln e p Hv Hnr) in Hstep.
    by eapply step_ok_store_ok.
  - intros rs. apply unique_emails, run_store_ok, empty_store_ok.
Qed.

(** C3 (as the code has it). A signup in which one of the four fields is
    absent registers nobody.  When the email given is already registered the
    answer is 400 'Email already in use'; otherwise it is status 500 with
    the message 'Error during signup'. *)
Theorem signup_absent_field (st : Store) (salt : string)
    (body : gmap string json) :
  body !! "firstName" = None \/ body !! "lastName" = None \/
  body !! "email" = None \/ body !! "password" = None ->
  users (snd (signup salt body st)) = users st /\
  ((exists e, castString (body !! "email") = Some e /\ registered e st) ->
   signup salt body st =
   (res_status_json 400 (Message "Email already in use"), st)) /\
  (~ (exists e, castString (body !! "email") = Some e /\ registered e st) ->
   exists err,
     fst (signup salt body st) =
     res_status_json 500 (MessageError "Error during signup" err)).
Proof.
  intros Habs.
  destruct (signup_cases salt body st)
    as [(e & Hc & Hreg & Hs)
       |[(Hnr & err & st' & Hs & Hu & _)
        |(u & p & _ & Hp & _ & Hfn & Hln & He & _)]].
  - rewrite Hs. split; [done|]. split; [done|].
    intros Hno. exfalso. apply Hno. by exists e.
  - rewrite Hs. split; [done|]. split.
    + intros (e & Hc & Hreg). exfalso. by apply (Hnr e).
    + intros _. by exists err.
  - exfalso. destruct Habs as [Ha|[Ha|[Ha|Ha]]]; rewrite Ha in *; done.
Qed.

(** C8. A successful login sends back the stored user document whole: its
    [user] object carries the [password] key with the stored value, which in
    a reachable store is a bcrypt digest.  A successful signup sends
    [{ message }] alone, with no [password] key anywhere. *)
Theorem login_exposes_digest_signup_does_not (st st2 : Store)
    (lbody sbody : gmap string json) (salt : string) :
  store_ok st ->
  status (fst (login lbody st)) = 200 ->
  status (fst (signup salt sbody st2)) = 201 ->
  (exists u, u ∈ users st /\
     to_wire (sent (fst (login lbody st))) =
       WObj [("message", WStr "Login successful"); ("user", User_toJSON u)] /\
     get_field "password" (User_toJSON u) = Some (WStr (password u)) /\
     exists p s, password u = digest p 10 s) /\
  to_wire (sent (fst (signup salt sbody st2))) =
    WObj [("message", WStr "User registered successfully!")] /\
  has_field "password" (to_wire (sent (fst (signup salt sbody st2)))) = false.
Proof.
  intros Hok Hl Hs. split.
  - rewrite login_eq in Hl |- *. cbn [fst] in *.
    destruct (castString (lbody !! "email")) as [e|]; [|done].
    destruct (List.find _ (users st)) as [u|] eqn:Hf; [|done].
    destruct (lbody !! "password") as [[| | |p]|]; try done.
    destruct (matches p (password u)); [|done].
    apply find_email_Some in Hf as [Hin _].
    exists u. repeat split; [done|]. by apply (passwords_hashed st Hok).
  - destruct (signup_cases salt sbody st2)
      as [(e & _ & _ & Hr)|[(_ & err & st' & Hr & _)|(u & p & Hr & _)]];
      rewrite Hr in Hs |- *; done.
Qed.

(** ** Questions *)

Lemma post_questions_succeeds (st : Store) (body : gmap string json)
    (T D : string) :
  body !! "title" = Some (JStr T) -> body !! "description" = Some (JStr D) ->
  T <> "" -> D <> "" ->
  post_questions body st =
  (res_status_json 201
     (MessageQuestion "Question created successfully!"
        (mkQuestion (nextId st) T D (Some false) (Some 0%Z))),
   mkStore (users st)
           (questions st ++ [mkQuestion (nextId st) T D (Some false) (Some 0%Z)])
           (replies st) (N.succ (nextId st))).
Proof.
  intros HT HD NT ND. rewrite post_questions_eq, HT, HD. simpl.
  destruct T; [done|]. by destruct D.
Qed.

(** C4. When creating a question with title T and description D succeeds
    (201), the list served next contains a question with title T,
    description D, [resolved] false and [upvotes] 0, whatever other keys the
    body had. *)
Theorem create_then_list (st : Store) (body : gmap string json) (T D : string) :
  body !! "title" = Some (JStr T) ->
  body !! "description" = Some (JStr D) ->
  status (fst (post_questions body st)) = 201 ->
  exists qs q,
    fst (get_questions (snd (post_questions body st))) =
      res_json (QuestionArray qs) /\
    q ∈ qs /\ title q = T /\ description q = D /\
    resolved q = Some false /\ upvotes q = Some 0%Z.
Proof.
  intros HT HD. rewrite get_questions_eq, post_questions_eq, HT, HD.
  cbn [castString].
  destruct T as [|a t]; [done|]. destruct D as [|b d]; [done|].
  intros _. cbn [fst snd questions].
  eexists _, (mkQuestion (nextId st) (String a t) (String b d)
                (Some false) (Some 0%Z)).
  split; [reflexivity|]. split; [|done].
  apply elem_of_app. right. by apply list_elem_of_singleton.
Qed.

(** C5. For a stored question: an update whose body has [resolved: true]
    and no [upvotes] key answers 200, and the question read afterwards (by
    identifier, and in the list served) has [resolved] true and its former
    [upvotes]; and for every body, a key among [resolved], [upvotes] that the
    body lacks leaves that field of the stored question as it was. *)
Theorem patch_only_present_keys (st : Store) (id : string) (i : ObjectId)
    (q : Question) (body : gmap string json) :
  castObjectId id = Some i ->
  lookup_question i st = Some q ->
  (body !! "resolved" = Some (JBool true) -> body !! "upvotes" = None ->
   exists q',
     fst (patch_questions_id id body st) =
       res_json (MessageQuestion "Question updated successfully!" q') /\
     lookup_question i (snd (patch_questions_id id body st)) = Some q' /\
     (exists qs,
        fst (get_questions (snd (patch_questions_id id body st))) =
          res_json (QuestionArray qs) /\ q' ∈ qs) /\
     resolved q' = Some true /\ upvotes q' = upvotes q) /\
  (exists q',
     lookup_question i (snd (patch_questions_id id body st)) = Some q' /\
     (body !! "resolved" = None -> resolved q' = resolved q) /\
     (body !! "upvotes" = None -> upvotes q' = upvotes q)).
Proof.
  intros Hi Hq.
  pose proof (find_id_Some _ _ _ Hq) as [_ Hqi].
  destruct (assigned_frame body q) as (Hid & _ & _).
  assert (Hfind : List.find
            (fun x => N.eqb (question_id x) (question_id (doc (assigned body q))))
            (questions st) = Some q).
  { unfold lookup_question in Hq. by rewrite Hid, Hqi. }
  rewrite patch_questions_id_eq, Hi, Hq. split.
  - intros Hr Hu.
    assert (Ha : assigned body q =
                 mkLoaded (mkQuestion (question_id q) (title q) (description q)
                             (Some true) (upvotes q)) []).
    { unfold assigned. by rewrite Hr, Hu. }
    rewrite Ha in Hfind |- *. cbn [cast_errors doc fst snd].
    eexists. split; [reflexivity|].
    unfold lookup_question. cbn [questions]. rewrite get_questions_eq.
    cbn [fst questions]. split; [|split; [|done]].
    + rewrite <- Hqi. exact (replace_question_find _ q _ Hfind).
    + eexists. split; [reflexivity|]. exact (replace_question_elem _ q _ Hfind).
  - destruct (cast_errors (assigned body q)) eqn:Hce; cbn [snd].
    + exists (doc (assigned body q)). split; [|apply assigned_absent].
      unfold lookup_question. cbn [questions].
      rewrite <- Hqi, <- Hid. exact (replace_question_find _ q _ Hfind).
    + by exists q.
Qed.

(** C10. An update never changes a title or a description, whatever the
    identifier and whatever keys the body has: the stored questions keep
    their identifiers, titles and descriptions, in the same order. *)
Theorem patch_keeps_title_description (st : Store) (id : string)
    (body : gmap string json) :
  (fun q => (question_id q, title q, description q))
    <$> questions (snd (patch_questions_id id body st)) =
  (fun q => (question_id q, title q, description q)) <$> questions st.
Proof.
  rewrite patch_questions_id_eq.
  destruct (castObjectId id) as [i|]; [|done].
  destruct (lookup_question i st) as [q|] eqn:Hq; [|done].
  destruct (cast_errors (assigned body q)); [|done].
  cbn [snd questions].
  pose proof (find_id_Some _ _ _ Hq) as [_ Hqi].
  destruct (assigned_frame body q) as (Hid & Ht & Hd).
  apply (replace_question_fmap _ _ q).
  - unfold lookup_question in Hq. by rewrite Hid, Hqi.
  - by rewrite Hid, Ht, Hd.
Qed.

Lemma lookup_question_absent (i : ObjectId) (st : Store) :
  ~ has_question i st -> lookup_question i st = None.
Proof.
  intros Hno. apply find_id_None. intros q Hin Hq. apply Hno. by exists q.
Qed.

Lemma not_found_when_gone (i : ObjectId) (id : string) (st : Store) :
  castObjectId id = Some i -> ~ has_question i st ->
  (forall body,
     patch_questions_id id body st =
     (res_status_json 404 (Message "Question not found"), st)) /\
  delete_questions_id id st =
    (res_status_json 404 (Message "Question not found"), st).
Proof.
  intros Hi Hno. split.
  - intros body.
    by rewrite patch_questions_id_eq, Hi, (lookup_question_absent _ _ Hno).
  - rewrite delete_questions_id_eq, Hi, (lookup_question_absent _ _ Hno).
    rewrite remove_question_absent; [by rewrite store_eta|].
    intros q Hin Hq. apply Hno. by exists q.
Qed.

(** C7. Once a delete of an identifier has succeeded (200), then after any
    further requests every update and every delete of that identifier is
    answered 404 'Question not found' and changes nothing. *)
Theorem delete_then_not_found (st : Store) (id : string) :
  store_ok st ->
  status (fst (delete_questions_id id st)) = 200 ->
  forall rs body,
    patch_questions_id id body (run rs (snd (delete_questions_id id st))) =
      (res_status_json 404 (Message "Question not found"),
       run rs (snd (delete_questions_id id st))) /\
    delete_questions_id id (run rs (snd (delete_questions_id id st))) =
      (res_status_json 404 (Message "Question not found"),
       run rs (snd (delete_questions_id id st))).
Proof.
  intros Hok Hdel rs body.
  rewrite delete_questions_id_eq in Hdel |- *.
  destruct (castObjectId id) as [i|] eqn:Hi; [|done].
  cbn [fst snd] in *.
  destruct (lookup_question i st) as [q|] eqn:Hq; [|done].
  apply find_id_Some in Hq as [Hin Hqi].
  assert (Hgone : gone i (mkStore (users st) (remove_question i (questions st))
                            (replies st) (nextId st))).
  { split; cbn [nextId questions].
    - rewrite <- Hqi. by apply (question_ids_issued st Hok).
    - apply remove_question_gone, (unique_question_ids st Hok). }
  apply (run_gone i rs) in Hgone as [_ Hno].
  assert (Hnq : ~ has_question i
                  (run rs (mkStore (users st) (remove_question i (questions st))
                             (replies st) (nextId st)))).
  { intros (q' & Hin' & Hq'). by apply (Hno q'). }
  destruct (not_found_when_gone i id _ Hi Hnq) as [Hp Hd]. by rewrite Hp.
Qed.

(** ** Replies *)

Lemma replies_of_nil (i : ObjectId) (st : Store) :
  (forall r, r ∈ replies st -> questionId r <> i) -> replies_of i st = [].
Proof.
  unfold replies_of. induction (replies st) as [|r l IH]; simpl; [done|].
  intros Hall. destruct (N.eqb_spec (questionId r) i) as [E|E].
  - exfalso. apply (Hall r); [left | done].
  - apply IH. intros r' Hr'. apply Hall. by right.
Qed.

(** C6 (as the code has it). For an identifier with no stored question:
    adding a reply is answered 404 'Question not found' and stores nothing;
    listing its replies is answered 200 with the stored replies tagged with
    it.  That list is empty when no stored reply carries the tag, and in
    particular when the identifier was never issued; a question deleted
    after it was answered leaves its replies behind. *)
Theorem replies_of_missing_question (st : Store) (id : string) (i : ObjectId)
    (body : gmap string json) :
  castObjectId id = Some i ->
  ~ has_question i st ->
  post_questions_id_replies id body st =
    (res_status_json 404 (Message "Question not found"), st) /\
  get_questions_id_replies id st = (res_json (ReplyArray (replies_of i st)), st) /\
  ((forall r, r ∈ replies st -> questionId r <> i) ->
   get_questions_id_replies id st = (res_json (ReplyArray []), st)) /\
  (store_ok st -> (nextId st <= i)%N ->
   get_questions_id_replies id st = (res_json (ReplyArray []), st)).
Proof.
  intros Hi Hno.
  rewrite post_questions_id_replies_eq, get_questions_id_replies_eq, Hi.
  rewrite (lookup_question_absent _ _ Hno).
  split; [done|]. split; [done|]. split.
  - intros Hall. by rewrite replies_of_nil.
  - intros Hok Hle. rewrite replies_of_nil; [done|].
    intros r Hin Hr. pose proof (reply_tags_issued st Hok r Hin). lia.
Qed.

Lemma reply_validation_when_present (st : Store) (id : string) (i : ObjectId)
    (body : gmap string json) :
  castObjectId id = Some i -> has_question i st ->
  body !! "content" = None \/ body !! "content" = Some (JStr "") ->
  fst (post_questions_id_replies id body st) =
  res_status_json 400 (ErrMessage (ValidationError ["content"])).
Proof.
  intros Hi (q & Hin & Hq) Hc. rewrite post_questions_id_replies_eq, Hi.
  destruct (lookup_question i st) eqn:Hf.
  - by destruct Hc as [-> | ->].
  - exfalso. by apply (proj1 (find_id_None i (questions st)) Hf q).
Qed.

(** C9. Adding a reply looks the question up before it validates the
    content: for an identifier with no stored question the answer is 404
    'Question not found' for every body, also one whose content is absent or
    empty, and nothing is stored; a validation error is answered only when
    the question exists. *)
Theorem reply_checks_question_first (st : Store) (id : string)
    (body : gmap string json) :
  (forall i, castObjectId id = Some i -> ~ has_question i st ->
     post_questions_id_replies id body st =
     (res_status_json 404 (Message "Question not found"), st)) /\
  (forall paths,
     sent (fst (post_questions_id_replies id body st)) =
       ErrMessage (ValidationError paths) ->
     exists i, castObjectId id = Some i /\ has_question i st).
Proof.
  rewrite post_questions_id_replies_eq. split.
  - intros i Hi Hno. by rewrite Hi, (lookup_question_absent _ _ Hno).
  - intros paths. destruct (castObjectId id) as [i|]; [|done].
    destruct (lookup_question i st) as [q|] eqn:Hf; [|done].
    intros _. exists i. split; [done|].
    apply find_id_Some in Hf as [Hin Hq]. by exists q.
Qed.

(** ** Further properties of the user routes *)

(** X1. The three reading routes (login, the question list, the replies of a
    question) leave the store exactly as it was, whatever they are sent. *)
Theorem read_routes_keep_store (st : Store) (body : gmap string json)
    (id : string) :
  snd (login body st) = st /\
  snd (get_questions st) = st /\
  snd (get_questions_id_replies id st) = st.
Proof.
  rewrite login_eq, get_questions_eq, get_questions_id_replies_eq.
  by destruct (castObjectId id).
Qed.

Lemma step_ok_users_prefix (st st' : Store) :
  step_ok st st' -> users st `prefix_of` users st'.
Proof.
  intros (_ & [->|(u & -> & _)] & _); [done|]. by apply prefix_app_r.
Qed.

Lemma run_users_prefix (rs : list request) (st : Store) :
  users st `prefix_of` users (run rs st).
Proof.
  revert st. induction rs as [|r rs IH]; intros st; cbn [run]; [done|].
  etrans; [|apply IH]. apply step_ok_users_prefix, handle_step.
Qed.

(** X2. No route removes or alters a stored user: after any requests every user
    stored before is still there, unchanged and at the same position, and
    the user collection has not shrunk. *)
Theorem users_only_appended (rs : list request) (st : Store) :
  (forall n u, users st !! n = Some u -> users (run rs st) !! n = Some u) /\
  length (users st) <= length (users (run rs st)).
Proof.
  pose proof (run_users_prefix rs st) as Hp. split.
  - intros n u Hu. by eapply prefix_lookup_Some.
  - by apply prefix_length.
Qed.

(** X3. Signup, then login: when bcrypt accepts a password against its own
    digest, a user who signed up can log in with the same email and
    password after any further requests, and gets back the document stored
    at signup. *)
Theorem signup_then_login (st : Store) (salt : string)
    (body lbody : gmap string json) (fn ln e p : string) (rs : list request) :
  store_ok st ->
  valid_signup body fn ln e p ->
  ~ registered e st ->
  matches p (digest p 10 salt) = true ->
  lbody !! "email" = Some (JStr e) ->
  lbody !! "password" = Some (JStr p) ->
  fst (login lbody (run rs (snd (signup salt body st)))) =
  res_status_json 200
    (MessageUser "Login successful"
       (mkUser (nextId st) fn ln e (digest p 10 salt))).
Proof.
  intros Hok Hv Hnr Hm He Hp.
  pose proof (handle_step (PostSignup salt body) st) as Hstep.
  cbn [handle] in Hstep.
  rewrite (signup_fresh st salt body fn ln e p Hv Hnr) in Hstep |- *.
  cbn [snd] in *.
  set (u := mkUser (nextId st) fn ln e (digest p 10 salt)) in *.
  set (st1 := mkStore (users st ++ [u]) (questions st) (replies st)
                (N.succ (nextId st))) in *.
  assert (Hin : u ∈ users (run rs st1)).
  { destruct (run_users_prefix rs st1) as [k ->].
    apply elem_of_app. left. cbn [st1 users].
    apply elem_of_app. right. by apply list_elem_of_singleton. }
  pose proof (run_store_ok rs st1 (step_ok_store_ok st st1 Hstep Hok)) as Hok1.
  rewrite login_eq, He, Hp. cbn [castString fst].
  rewrite (find_email_unique e _ u (unique_emails _ Hok1) Hin eq_refl).
  cbn [u password]. by rewrite Hm.
Qed.

(** X4. A login body without a [password] key tells the two failures apart:
    with a registered email bcrypt rejects its argument and the answer is
    500 'Error during login'; with any other email the answer is 400
    'Invalid email or password'. *)
Theorem login_without_password (st : Store) (body : gmap string json) :
  body !! "password" = None ->
  ((exists e, castString (body !! "email") = Some e /\ registered e st) ->
   fst (login body st) =
   res_status_json 500 (MessageError "Error during login" BcryptArguments)) /\
  (~ (exists e, castString (body !! "email") = Some e /\ registered e st) ->
   fst (login body st) =
   res_status_json 400 (Message "Invalid email or password")).
Proof.
  intros Hp. rewrite login_eq, Hp. cbn [fst].
  destruct (castString (body !! "email")) as [e|].
  - destruct (List.find _ (users st)) as [u|] eqn:Hf.
    + split; [done|]. intros Hno. exfalso. apply Hno. exists e.
      apply find_email_Some in Hf as [Hin He]. split; [done|]. by exists u.
    + split; [|done]. intros (e' & [= <-] & u & Hin & He).
      exfalso. by apply (proj1 (find_email_None e (users st)) Hf u).
  - split; [|done]. by intros (e' & [=] & _).
Qed.

(** X5. Signup answers 201 exactly when the password is a string, the two
    names and the email are present and not empty, and the email is not
    registered. *)
Theorem signup_succeeds_iff (st : Store) (salt : string)
    (body : gmap string json) :
  status (fst (signup salt body st)) = 201 <->
  exists fn ln e p,
    castString (body !! "firstName") = Some fn /\
    castString (body !! "lastName") = Some ln /\
    castString (body !! "email") = Some e /\
    body !! "password" = Some (JStr p) /\
    fn <> "" /\ ln <> "" /\ e <> "" /\ ~ registered e st.
Proof.
  split.
  - destruct (signup_cases salt body st)
      as [(e & _ & _ & ->)|[(_ & err & st' & -> & _)
                           |(u & p & _ & Hp & _ & Hfn & Hln & He & N1 & N2 & N3 & Hnr)]];
      [done..|].
    intros _. by exists (firstName u), (lastName u), (email u), p.
  - intros (fn & ln & e & p & Hfn & Hln & He & Hp & Nfn & Nln & Ne & Hnr).
    assert (Hfree : forall u, u ∈ users st -> email u <> e).
    { intros u Hin Hu. apply Hnr. by exists u. }
    unfold signup, new_User, User_save, try_catch, bind.
    rewrite User_findOne_eq, Hfn, Hln, He, Hp.
    rewrite (proj2 (find_email_None e (users st)) Hfree). simpl.
    pose proof (digest_nonempty p 10 salt) as Hd.
    destruct (digest p 10 salt) as [|dc ds]; [done|].
    destruct fn as [|fc fs]; [done|]. destruct ln as [|lc ls]; [done|].
    destruct e as [|ec es]; [done|].
    by rewrite (existsb_email_false _ _ Hfree).
Qed.

(** ** Further properties of the question routes *)

(** X6. Creating a question answers 201 exactly when the title and the
    description are present and not empty, and 400 otherwise.  On 201 the
    question sent back is the one appended, last in the list, under the
    generator's next identifier; on 400 no collection changes. *)
Theorem post_questions_validates (st : Store) (body : gmap string json) :
  (status (fst (post_questions body st)) = 201 <->
   exists T D, castString (body !! "title") = Some T /\
               castString (body !! "description") = Some D /\
               T <> "" /\ D <> "") /\
  (status (fst (post_questions body st)) = 201 ->
   exists q,
     sent (fst (post_questions body st)) =
       MessageQuestion "Question created successfully!" q /\
     question_id q = nextId st /\
     questions (snd (post_questions body st)) = (questions st ++ [q])%list) /\
  (status (fst (post_questions body st)) <> 201 ->
   status (fst (post_questions body st)) = 400 /\
   questions (snd (post_questions body st)) = questions st) /\
  users (snd (post_questions body st)) = users st /\
  replies (snd (post_questions body st)) = replies st.
Proof.
  rewrite post_questions_eq.
  destruct (castString (body !! "title")) as [[|a t]|];
    destruct (castString (body !! "description")) as [[|b d]|];
    cbn [fst snd status sent users questions replies res_status_json];
    (split; [split; [try done; intros _; by eexists _, _
                    |try (by intros (T & D & [=] & _));
                     try (by intros (T & D & _ & [=] & _));
                     try (by intros (T & D & [= <-] & _ & N & _));
                     try (by intros (T & D & _ & [= <-] & _ & N))]|]);
    (split; [try done; intros _; by eexists|]);
    by (split; [try done; by intros []|]).
Qed.

(** X7. An update that does not answer 200 leaves the store exactly as it was:
    when one of the two keys holds a value that cannot be cast, the other
    key is not applied either. *)
Theorem patch_failure_keeps_store (st : Store) (id : string)
    (body : gmap string json) :
  status (fst (patch_questions_id id body st)) <> 200 ->
  snd (patch_questions_id id body st) = st.
Proof.
  rewrite patch_questions_id_eq.
  destruct (castObjectId id) as [i|]; [|done].
  destruct (lookup_question i st) as [q|]; [|done].
  by destruct (cast_errors (assigned body q)).
Qed.

Lemma replace_question_other (x q : Question) (l : list Question) :
  question_id x <> question_id q ->
  x ∈ replace_question q l <-> x ∈ l.
Proof.
  intros Hne. induction l as [|y l IH]; cbn [replace_question]; [done|].
  destruct (N.eqb_spec (question_id y) (question_id q)) as [E|E].
  - rewrite !elem_of_cons. split; intros [->|Hin]; auto; congruence.
  - rewrite !elem_of_cons, IH. done.
Qed.

Lemma replace_question_length (q : Question) (l : list Question) :
  length (replace_question q l) = length l.
Proof.
  induction l as [|y l IH]; cbn [replace_question]; [done|].
  destruct (N.eqb (question_id y) (question_id q)); simpl; by rewrite ?IH.
Qed.

(** X8. An update touches nothing but the question it addresses: users,
    replies and the generator stay as they are, the number of questions is
    unchanged, and every question under another identifier is stored
    afterwards exactly if it was stored before. *)
Theorem patch_touches_one_question (st : Store) (id : string) (i : ObjectId)
    (body : gmap string json) :
  castObjectId id = Some i ->
  users (snd (patch_questions_id id body st)) = users st /\
  replies (snd (patch_questions_id id body st)) = replies st /\
  nextId (snd (patch_questions_id id body st)) = nextId st /\
  length (questions (snd (patch_questions_id id body st))) =
    length (questions st) /\
  forall q, question_id q <> i ->
    (q ∈ questions (snd (patch_questions_id id body st)) <-> q ∈ questions st).
Proof.
  intros Hi. rewrite patch_questions_id_eq, Hi.
  destruct (lookup_question i st) as [q0|] eqn:Hf; [|done].
  destruct (cast_errors (assigned body q0)); [|done].
  cbn [snd users questions replies nextId].
  apply find_id_Some in Hf as [_ Hq0].
  destruct (assigned_frame body q0) as (Hid & _ & _).
  repeat split; try done.
  - apply replace_question_length.
  - apply replace_question_other. congruence.
  - apply replace_question_other. congruence.
Qed.

Lemma assigned_again (body : gmap string json) (q : Question) :
  cast_errors (assigned body q) = [] ->
  assigned body (doc (assigned body q)) = assigned body q.
Proof.
  destruct q as [i t d r u]. unfold assigned, set_resolved, set_upvotes.
  destruct (body !! "resolved") as [v|]; destruct (body !! "upvotes") as [w|];
    cbn [doc cast_errors];
    repeat match goal with
           | |- context [castBoolean ?x] => destruct (castBoolean x)
           | |- context [castNumber ?x] => destruct (castNumber x)
           end; cbn; done.
Qed.

Lemma replace_question_twice (q : Question) (l : list Question) :
  replace_question q (replace_question q l) = replace_question q l.
Proof.
  induction l as [|y l IH]; cbn [replace_question]; [done|].
  destruct (N.eqb (question_id y) (question_id q)) eqn:E;
    cbn [replace_question].
  - by rewrite N.eqb_refl.
  - by rewrite E, IH.
Qed.

(** X9. Sending the same update twice is the same as sending it once: the
    second request gets the answer of the first and leaves the store the
    first one left. *)
Theorem patch_twice (st : Store) (id : string) (body : gmap string json) :
  patch_questions_id id body (snd (patch_questions_id id body st)) =
  (fst (patch_questions_id id body st), snd (patch_questions_id id body st)).
Proof.
  rewrite (patch_questions_id_eq id body st).
  destruct (castObjectId id) as [i|] eqn:Hi;
    [|cbn [fst snd]; by rewrite patch_questions_id_eq, Hi].
  destruct (lookup_question i st) as [q|] eqn:Hq;
    [|cbn [fst snd]; by rewrite patch_questions_id_eq, Hi, Hq].
  destruct (cast_errors (assigned body q)) as [|e es] eqn:Hce;
    [|cbn [fst snd]; by rewrite patch_questions_id_eq, Hi, Hq, Hce].
  cbn [fst snd].
  pose proof (find_id_Some _ _ _ Hq) as [_ Hqi].
  destruct (assigned_frame body q) as (Hid & _ & _).
  assert (Hfind : List.find
            (fun x => N.eqb (question_id x) (question_id (doc (assigned body q))))
            (questions st) = Some q).
  { unfold lookup_question in Hq. by rewrite Hid, Hqi. }
  rewrite patch_questions_id_eq, Hi. unfold lookup_question at 1.
  cbn [questions].
  rewrite <- Hqi, <- Hid, (replace_question_find _ q _ Hfind).
  rewrite (assigned_again body q Hce), Hce.
  cbn [users questions replies nextId]. by rewrite replace_question_twice.
Qed.


Lemma remove_question_filter (i : ObjectId) (l : list Question) :
  NoDup (question_id <$> l) ->
  remove_question i l =
  List.filter (fun q => negb (N.eqb (question_id q) i)) l.
Proof.
  induction l as [|y l IH]; cbn [remove_question List.filter]; [done|].
  rewrite fmap_cons. intros [Hy Hnd]%NoDup_cons.
  destruct (N.eqb_spec (question_id y) i) as [E|E]; cbn [negb].
  - rewrite <- IH by done. symmetry. apply remove_question_absent.
    intros q Hin Hq. apply Hy. rewrite E, <- Hq. by apply list_elem_of_fmap_2.
  - by rewrite IH.
Qed.

Lemma remove_question_length (i : ObjectId) (l : list Question) :
  length (remove_question i l) =
  match List.find (fun q => N.eqb (question_id q) i) l with
  | Some _ => pred (length l)
  | None => length l
  end.
Proof.
  induction l as [|y l IH]; cbn [remove_question List.find]; [done|].
  destruct (N.eqb (question_id y) i); [done|]. cbn [length]. rewrite IH.
  destruct (List.find _ l) eqn:Hf; [|done].
  destruct l; [done|]. done.
Qed.

(** X11. Deleting by an identifier answers 200 exactly when a question has it,
    and 404 otherwise.  It removes one question at most, and none when the
    answer is 404; with distinct identifiers, the questions left are the
    others, in their order.  Users and replies are never touched: the
    replies of a deleted question stay stored. *)
Theorem delete_removes_one_question (st : Store) (id : string) (i : ObjectId) :
  castObjectId id = Some i ->
  (status (fst (delete_questions_id id st)) = 200 <-> has_question i st) /\
  (~ has_question i st ->
   delete_questions_id id st =
   (res_status_json 404 (Message "Question not found"), st)) /\
  (has_question i st ->
   S (length (questions (snd (delete_questions_id id st)))) =
   length (questions st)) /\
  (NoDup (question_id <$> questions st) ->
   questions (snd (delete_questions_id id st)) =
   List.filter (fun q => negb (N.eqb (question_id q) i)) (questions st)) /\
  users (snd (delete_questions_id id st)) = users st /\
  replies (snd (delete_questions_id id st)) = replies st.
Proof.
  intros Hi. rewrite delete_questions_id_eq, Hi.
  cbn [fst snd users questions replies].
  assert (Hiff : lookup_question i st <> None <-> has_question i st).
  { split.
    - destruct (lookup_question i st) as [q|] eqn:Hf; [|done].
      intros _. apply find_id_Some in Hf as [Hin Hq]. by exists q.
    - intros (q & Hin & Hq) Hf.
      by apply (proj1 (find_id_None i (questions st)) Hf q). }
  split; [|split; [|split; [|split]]].
  - rewrite <- Hiff. by destruct (lookup_question i st).
  - intros Hno. rewrite (lookup_question_absent _ _ Hno).
    rewrite remove_question_absent; [by rewrite store_eta|].
    intros q Hin Hq. apply Hno. by exists q.
  - intros Hex. apply Hiff in Hex. rewrite remove_question_length.
    unfold lookup_question in Hex.
    destruct (List.find _ (questions st)) as [q|] eqn:Hf; [|done].
    apply find_id_Some in Hf as [Hin _].
    destruct (questions st); [inversion Hin | done].
  - apply remove_question_filter.
  - done.
Qed.

(** ** Further properties of the reply routes *)

(** X13. Adding a reply with a non-empty string content to a stored question
    answers 201 with the reply stored; listing the replies of that question
    next returns its former replies followed by the new one; the replies
    listed for every other identifier, and the questions, are unchanged. *)
Theorem reply_then_list (st : Store) (id : string) (i : ObjectId)
    (body : gmap string json) (c : string) :
  castObjectId id = Some i ->
  has_question i st ->
  body !! "content" = Some (JStr c) ->
  c <> "" ->
  fst (post_questions_id_replies id body st) =
    res_status_json 201
      (MessageReply "Reply added successfully!" (mkReply (nextId st) c i)) /\
  fst (get_questions_id_replies id (snd (post_questions_id_replies id body st)))
    = res_json (ReplyArray (replies_of i st ++ [mkReply (nextId st) c i])) /\
  (forall j, j <> i ->
     replies_of j (snd (post_questions_id_replies id body st)) =
     replies_of j st) /\
  questions (snd (post_questions_id_replies id body st)) = questions st.
Proof.
  intros Hi (q & Hin & Hq) Hc Nc.
  rewrite get_questions_id_replies_eq, post_questions_id_replies_eq, Hi, Hc.
  destruct (lookup_question i st) eqn:Hf;
    [|exfalso; by apply (proj1 (find_id_None i (questions st)) Hf q)].
  cbn [castString]. destruct c as [|a c]; [done|].
  cbn [fst snd questions]. unfold replies_of. cbn [replies].
  split; [done|]. split; [|split; [|done]].
  - rewrite List.filter_app. cbn [List.filter questionId].
    by rewrite N.eqb_refl.
  - intros j Hj. rewrite List.filter_app. cbn [List.filter questionId].
    destruct (N.eqb_spec i j) as [E|E]; [congruence|]. by rewrite app_nil_r.
Qed.

(** X14. A reply without content, or with [null] or the empty string as content,
    to a stored question is answered 400 and stores nothing. *)
Theorem reply_without_content (st : Store) (id : string) (i : ObjectId)
    (body : gmap string json) :
  castObjectId id = Some i ->
  has_question i st ->
  body !! "content" = None \/ body !! "content" = Some JNull \/
  body !! "content" = Some (JStr "") ->
  fst (post_questions_id_replies id body st) =
    res_status_json 400 (ErrMessage (ValidationError ["content"])) /\
  users (snd (post_questions_id_replies id body st)) = users st /\
  questions (snd (post_questions_id_replies id body st)) = questions st /\
  replies (snd (post_questions_id_replies id body st)) = replies st.
Proof.
  intros Hi (q & Hin & Hq) Hc. rewrite post_questions_id_replies_eq, Hi.
  destruct (lookup_question i st) eqn:Hf;
    [|exfalso; by apply (proj1 (find_id_None i (questions st)) Hf q)].
  by destruct Hc as [-> |[-> | ->]].
Qed.

(** X15. A route parameter that is not an identifier is answered with the cast
    error, under a status that depends on the route: 400 by update and by
    add-reply, 500 by delete and by list-replies.  The store is left as it
    was. *)
Theorem malformed_id_statuses (st : Store) (id : string)
    (body : gmap string json) :
  castObjectId id = None ->
  patch_questions_id id body st =
    (res_status_json 400 (ErrMessage (CastError "_id")), st) /\
  delete_questions_id id st =
    (res_status_json 500 (ErrMessage (CastError "_id")), st) /\
  post_questions_id_replies id body st =
    (res_status_json 400 (ErrMessage (CastError "_id")), st) /\
  get_questions_id_replies id st =
    (res_status_json 500 (ErrMessage (CastError "questionId")), st).
Proof.
  intros Hi.
  by rewrite patch_questions_id_eq, delete_questions_id_eq,
    post_questions_id_replies_eq, get_questions_id_replies_eq, Hi.
Qed.

(** ** Properties of every route *)

(** X16. A document is stored exactly when the answer is 201: for every request,
    the three collections together hold one document more afterwards if and
    only if the status is 201. *)
Theorem stored_iff_201 (r : request) (st : Store) :
  status (fst (handle r st)) = 201 <->
  length (users (snd (handle r st))) + length (questions (snd (handle r st)))
    + length (replies (snd (handle r st))) =
  S (length (users st) + length (questions st) + length (replies st)).
Proof.
  destruct r as [salt body|body| |body|id body|id|id body|id]; cbn [handle].
  - destruct (signup_cases salt body st)
      as [(e & _ & _ & ->)|[(_ & err & st' & -> & Hu & Hq & Hr & _)
                           |(u & p & -> & _)]];
      cbn [fst snd status res_status_json users questions replies];
      rewrite ?Hu, ?Hq, ?Hr, ?length_app; cbn [length];
      split; (done || lia).
  - rewrite login_eq. cbn [fst snd].
    split; [|lia].
    destruct (castString (body !! "email")) as [e|]; [|done].
    destruct (List.find _ (users st)) as [u|]; [|done].
    destruct (body !! "password") as [[| | |p]|]; try done.
    by destruct (matches p (password u)).
  - rewrite get_questions_eq. cbn [fst snd status res_json]. split; (done || lia).
  - rewrite post_questions_eq.
    destruct (castString (body !! "title")) as [[|a t]|];
      destruct (castString (body !! "description")) as [[|b d]|];
      cbn [fst snd status res_status_json users questions replies];
      rewrite ?length_app; cbn [length]; split; (done || lia).
  - rewrite patch_questions_id_eq.
    destruct (castObjectId id) as [i|];
      [|cbn [fst snd status res_status_json]; split; (done || lia)].
    destruct (lookup_question i st) as [q|];
      [|cbn [fst snd status res_status_json]; split; (done || lia)].
    destruct (cast_errors (assigned body q));
      cbn [fst snd status res_status_json res_json users questions replies];
      rewrite ?replace_question_length; split; (done || lia).
  - rewrite delete_questions_id_eq.
    destruct (castObjectId id) as [i|];
      [|cbn [fst snd status res_status_json]; split; (done || lia)].
    cbn [fst snd users questions replies]. rewrite remove_question_length.
    unfold lookup_question.
    destruct (List.find _ (questions st));
      cbn [status res_status_json res_json]; split; (done || lia).
  - rewrite post_questions_id_replies_eq.
    destruct (castObjectId id) as [i|];
      [|cbn [fst snd status res_status_json]; split; (done || lia)].
    destruct (lookup_question i st) as [q|];
      [|cbn [fst snd status res_status_json]; split; (done || lia)].
    destruct (castString (body !! "content")) as [[|a c]|];
      cbn [fst snd status res_status_json users questions replies];
      rewrite ?length_app; cbn [length]; split; (done || lia).
  - rewrite get_questions_id_replies_eq.
    destruct (castObjectId id);
      cbn [fst snd status res_status_json res_json]; split; (done || lia).
Qed.

(** X17. The statuses in use are 200, 201, 400, 404 and 500, and every answer
    other than 200 and 201 is a JSON object with a [message] key. *)
Theorem failures_carry_a_message (r : request) (st : Store) :
  status (fst (handle r st)) ∈ [200; 201; 400; 404; 500] /\
  (status (fst (handle r st)) <> 200 ->
   status (fst (handle r st)) <> 201 ->
   exists w, get_field "message" (to_wire (sent (fst (handle r st)))) = Some w).
Proof.
  assert (H200 : 200 ∈ [200; 201; 400; 404; 500]) by repeat constructor.
  assert (H201 : 201 ∈ [200; 201; 400; 404; 500]) by repeat constructor.
  assert (H400 : 400 ∈ [200; 201; 400; 404; 500]) by repeat constructor.
  assert (H404 : 404 ∈ [200; 201; 400; 404; 500]) by repeat constructor.
  assert (H500 : 500 ∈ [200; 201; 400; 404; 500]) by repeat constructor.
  destruct r as [salt body|body| |body|id body|id|id body|id]; cbn [handle].
  - destruct (signup_cases salt body st)
      as [(e & _ & _ & ->)|[(_ & err & st' & -> & _)|(u & p & -> & _)]];
      (split; [done|]); try done; intros _ _; by eexists.
  - rewrite login_eq. cbn [fst].
    destruct (castString (body !! "email")) as [e|];
      [|split; [done|]; intros _ _; by eexists].
    destruct (List.find _ (users st)) as [u|];
      [|split; [done|]; intros _ _; by eexists].
    destruct (body !! "password") as [[| | |p]|];
      try (split; [done|]; intros _ _; by eexists).
    destruct (matches p (password u));
      (split; [done|]); try done; intros _ _; by eexists.
  - by rewrite get_questions_eq.
  - rewrite post_questions_eq.
    destruct (castString (body !! "title")) as [[|a t]|];
      destruct (castString (body !! "description")) as [[|b d]|];
      (split; [done|]); try done; intros _ _; by eexists.
  - rewrite patch_questions_id_eq.
    destruct (castObjectId id) as [i|];
      [|split; [done|]; intros _ _; by eexists].
    destruct (lookup_question i st) as [q|];
      [|split; [done|]; intros _ _; by eexists].
    destruct (cast_errors (assigned body q));
      (split; [done|]); try done; intros _ _; by eexists.
  - rewrite delete_questions_id_eq.
    destruct (castObjectId id) as [i|];
      [|split; [done|]; intros _ _; by eexists].
    destruct (lookup_question i st) as [q|];
      (split; [done|]); try done; intros _ _; by eexists.
  - rewrite post_questions_id_replies_eq.
    destruct (castObjectId id) as [i|];
      [|split; [done|]; intros _ _; by eexists].
    destruct (lookup_question i st) as [q|];
      [|split; [done|]; intros _ _; by eexists].
    destruct (castString (body !! "content")) as [[|a c]|];
      (split; [done|]); try done; intros _ _; by eexists.
  - rewrite get_questions_id_replies_eq.
    destruct (castObjectId id);
      (split; [done|]); try done; intros _ _; by eexists.
Qed.

Lemma replace_question_elem_of (x q : Question) (l : list Question) :
  x ∈ replace_question q l -> x ∈ l \/ x = q.
Proof.
  induction l as [|y l IH]; cbn [replace_question]; [by left|].
  destruct (N.eqb (question_id y) (question_id q)).
  - intros [->|Hin]%elem_of_cons; [by right|]. left. by right.
  - intros [->|Hin]%elem_of_cons; [left; by left|].
    destruct (IH Hin) as [Hl|Hq]; [left; by right | by right].
Qed.

Lemma handle_required (r : request) (st : Store) :
  ((forall u, u ∈ users st ->
      firstName u <> "" /\ lastName u <> "" /\ email u <> "" /\ password u <> "") /\
   (forall q, q ∈ questions st -> title q <> "" /\ description q <> "") /\
   (forall x, x ∈ replies st -> content x <> "")) ->
  (forall u, u ∈ users (snd (handle r st)) ->
     firstName u <> "" /\ lastName u <> "" /\ email u <> "" /\ password u <> "") /\
  (forall q, q ∈ questions (snd (handle r st)) ->
     title q <> "" /\ description q <> "") /\
  (forall x, x ∈ replies (snd (handle r st)) -> content x <> "").
Proof.
  intros (HU & HQ & HR).
  destruct r as [salt body|body| |body|id body|id|id body|id]; cbn [handle].
  - destruct (signup_cases salt body st)
      as [(e & _ & _ & ->)
         |[(_ & err & st' & -> & Hu & Hq & Hr & _)
          |(u & p & -> & _ & Hrec & _ & _ & _ & N1 & N2 & N3 & _)]];
      cbn [snd users questions replies]; rewrite ?Hu, ?Hq, ?Hr; [done..|].
    split; [|done]. intros u' [Hin|Hin]%elem_of_app; [by apply HU|].
    apply list_elem_of_singleton in Hin as ->.
    repeat split; try done. rewrite Hrec. cbn [password].
    apply digest_nonempty.
  - by rewrite login_eq.
  - by rewrite get_questions_eq.
  - rewrite post_questions_eq.
    destruct (castString (body !! "title")) as [[|a t]|];
      destruct (castString (body !! "description")) as [[|b d]|];
      cbn [snd users questions replies]; try done.
    split; [done|]. split; [|done].
    intros q [Hin|Hin]%elem_of_app; [by apply HQ|].
    by apply list_elem_of_singleton in Hin as ->.
  - rewrite patch_questions_id_eq.
    destruct (castObjectId id) as [i|]; [|done].
    destruct (lookup_question i st) as [q0|] eqn:Hf; [|done].
    destruct (cast_errors (assigned body q0)); [|done].
    cbn [snd users questions replies]. split; [done|]. split; [|done].
    intros q [Hin| ->]%replace_question_elem_of; [by apply HQ|].
    destruct (assigned_frame body q0) as (_ & -> & ->).
    apply HQ. by apply find_id_Some in Hf as [Hin _].
  - rewrite delete_questions_id_eq.
    destruct (castObjectId id) as [i|]; [|done].
    cbn [snd users questions replies]. split; [done|]. split; [|done].
    intros q Hin. apply HQ.
    eapply elem_of_sublist; [exact Hin | apply remove_question_sublist].
  - rewrite post_questions_id_replies_eq.
    destruct (castObjectId id) as [i|]; [|done].
    destruct (lookup_question i st) as [q0|]; [|done].
    destruct (castString (body !! "content")) as [[|a c]|];
      cbn [snd users questions replies]; try done.
    split; [done|]. split; [done|].
    intros x [Hin|Hin]%elem_of_app; [by apply HR|].
    by apply list_elem_of_singleton in Hin as ->.
  - rewrite get_questions_id_replies_eq. by destruct (castObjectId id).
Qed.

(** X18. The [required] constraints of the three schemas hold of everything
    stored: in every store reached from the empty one, no user has an empty
    first name, last name, email or password, no question an empty title or
    description, no reply an empty content. *)
Theorem stored_required_fields (rs : list request) :
  (forall u, u ∈ users (run rs empty_store) ->
     firstName u <> "" /\ lastName u <> "" /\ email u <> "" /\ password u <> "") /\
  (forall q, q ∈ questions (run rs empty_store) ->
     title q <> "" /\ description q <> "") /\
  (forall x, x ∈ replies (run rs empty_store) -> content x <> "").
Proof.
  assert (Hrun : forall st,
    ((forall u, u ∈ users st ->
        firstName u <> "" /\ lastName u <> "" /\ email u <> "" /\ password u <> "") /\
     (forall q, q ∈ questions st -> title q <> "" /\ description q <> "") /\
     (forall x, x ∈ replies st -> content x <> "")) ->
    (forall u, u ∈ users (run rs st) ->
       firstName u <> "" /\ lastName u <> "" /\ email u <> "" /\ password u <> "") /\
    (forall q, q ∈ questions (run rs st) -> title q <> "" /\ description q <> "") /\
    (forall x, x ∈ replies (run rs st) -> content x <> "")).
  { induction rs as [|r rs IH]; intros st Hst; cbn [run]; [done|].
    apply IH. by apply handle_required. }
  apply Hrun. cbn. split; [|split]; intros x Hx; inversion Hx.
Qed.

(** X19. Identifiers in every store reached from the empty one: no two stored
    questions share an identifier, every question identifier and every
    reply's question tag was issued by the generator, and so is below the
    next identifier it will issue. *)
Theorem reachable_identifiers (rs : list request) :
  NoDup (question_id <$> questions (run rs empty_store)) /\
  (forall q, q ∈ questions (run rs empty_store) ->
     (question_id q < nextId (run rs empty_store))%N) /\
  (forall x, x ∈ replies (run rs empty_store) ->
     (questionId x < nextId (run rs empty_store))%N).
Proof.
  destruct (run_store_ok rs empty_store empty_store_ok) as [_ _ H1 H2 H3].
  by repeat split.
Qed.

Lemma remove_question_last (q : Question) (l : list Question) :
  (forall x, x ∈ l -> question_id x <> question_id q) ->
  remove_question (question_id q) (l ++ [q]) = l.
Proof.
  induction l as [|y l IH]; intros Hall; cbn [app remove_question].
  - by rewrite N.eqb_refl.
  - destruct (N.eqb_spec (question_id y) (question_id q)) as [E|E].
    + exfalso. apply (Hall y); [left | done].
    + f_equal. apply IH. intros x Hx. apply Hall. by right.
Qed.

(** X12. Create, then delete: in a store whose question identifiers were all
    issued, deleting a question just created, by the identifier it was
    given, answers 200 and leaves the three collections as they were before
    the creation. *)
Theorem create_then_delete (st : Store) (body : gmap string json) (id : string) :
  (forall q, q ∈ questions st -> (question_id q < nextId st)%N) ->
  status (fst (post_questions body st)) = 201 ->
  castObjectId id = Some (nextId st) ->
  fst (delete_questions_id id (snd (post_questions body st))) =
    res_json (Message "Question deleted successfully!") /\
  users (snd (delete_questions_id id (snd (post_questions body st)))) = users st /\
  questions (snd (delete_questions_id id (snd (post_questions body st))))
    = questions st /\
  replies (snd (delete_questions_id id (snd (post_questions body st))))
    = replies st.
Proof.
  intros Hiss Hs Hid. rewrite delete_questions_id_eq, Hid.
  rewrite post_questions_eq in Hs |- *.
  destruct (castString (body !! "title")) as [[|a t]|]; try done;
    destruct (castString (body !! "description")) as [[|b d]|]; try done.
  cbn [fst snd users questions replies]. unfold lookup_question.
  cbn [questions].
  set (q := mkQuestion (nextId st) (String a t) (String b d) (Some false)
              (Some 0%Z)).
  assert (Hne : forall x, x ∈ questions st -> question_id x <> question_id q).
  { intros x Hx. specialize (Hiss x Hx). cbn [q question_id]. lia. }
  change (nextId st) with (question_id q) at 1 2.
  rewrite (remove_question_last q (questions st) Hne).
  repeat split.
  destruct (List.find _ (questions st ++ [q])) eqn:Hf; [done|].
  exfalso. apply (proj1 (find_id_None _ _) Hf q); [|done].
  apply elem_of_app. right. by apply list_elem_of_singleton.
Qed.

End Properties.

(** ** The handlers run on the sample data *)

#[local] Existing Instance plain.

Lemma alice_store_ok : store_ok alice_store.
Proof.
  split; simpl.
  - apply NoDup_singleton.
  - intros u Hu. apply list_elem_of_singleton in Hu as ->.
    by exists "rabbit", "na".
  - apply NoDup_nil_2.
  - intros q Hq. inversion Hq.
  - intros r Hr. inversion Hr.
Qed.

Lemma one_question_ok : store_ok one_question.
Proof.
  split; simpl.
  - apply NoDup_nil_2.
  - intros u Hu. inversion Hu.
  - apply NoDup_singleton.
  - intros q Hq. by apply list_elem_of_singleton in Hq as ->.
  - intros r Hr. inversion Hr.
Qed.

Lemma orphan_store_no_question : ~ has_question 0 orphan_store.
Proof. intros (q & Hin & _). inversion Hin. Qed.

Lemma login_succeeds_iff_witness :
  fst (login alice_login alice_store) =
  res_status_json 200 (MessageUser "Login successful" alice_user).
Proof.
  refine (proj1 (proj2 (proj2
            (login_succeeds_iff alice_store alice_login
               "alice@example.org" "rabbit" _ _ _))) alice_user _ _ _).
  - apply NoDup_singleton.
  - reflexivity.
  - reflexivity.
  - by apply list_elem_of_singleton.
  - reflexivity.
  - reflexivity.
Defined.

Lemma signup_once_then_conflict_witness :
  fst (signup "na" alice empty_store) =
    res_status_json 201 (Message "User registered successfully!") /\
  signup "cl" alice (snd (signup "na" alice empty_store)) =
    (res_status_json 400 (Message "Email already in use"),
     snd (signup "na" alice empty_store)).
Proof.
  destruct (signup_once_then_conflict empty_store "na" alice
              "Alice" "Liddell" "alice@example.org" "rabbit")
    as (H1 & _ & H3 & _).
  - apply empty_store_ok.
  - repeat split; done.
  - intros (u & Hin & _). inversion Hin.
  - split; [exact H1 | exact (H3 [] "cl" alice eq_refl)].
Defined.

(** C3, as stated, fails: without the [password] key bcrypt rejects its
    argument, the [catch] answers 500, and 500 is not the 400 of a
    validation error. *)
Lemma signup_without_password_is_500 :
  no_password !! "password" = None /\
  signup "na" no_password empty_store =
    (res_status_json 500 (MessageError "Error during signup" BcryptArguments),
     empty_store) /\
  status (fst (signup "na" no_password empty_store)) <> 400.
Proof. by vm_compute. Qed.

Lemma signup_absent_field_witness :
  users (snd (signup "na" no_password empty_store)) = [] /\
  exists err,
    fst (signup "na" no_password empty_store) =
    res_status_json 500 (MessageError "Error during signup" err).
Proof.
  destruct (signup_absent_field empty_store "na" no_password) as (H1 & _ & H3).
  - right. right. right. reflexivity.
  - split; [exact H1|]. apply H3.
    intros (e & _ & u & Hin & _). inversion Hin.
Defined.

Lemma create_then_list_witness :
  exists qs q,
    fst (get_questions (snd (post_questions question_TD empty_store))) =
      res_json (QuestionArray qs) /\
    q ∈ qs /\ title q = "T" /\ description q = "D" /\
    resolved q = Some false /\ upvotes q = Some 0%Z.
Proof.
  apply (create_then_list empty_store question_TD "T" "D"); reflexivity.
Defined.

Lemma patch_only_present_keys_witness :
  exists q',
    lookup_question 0 (snd (patch_questions_id id0 resolve_only one_question))
      = Some q' /\
    resolved q' = Some true /\ upvotes q' = Some 7%Z.
Proof.
  destruct (patch_only_present_keys one_question id0 0 question0 resolve_only)
    as [H1 _]; [reflexivity..|].
  destruct H1 as (q' & _ & Hl & _ & Hr & Hu); [reflexivity..|].
  exists q'. by repeat split.
Defined.

(** C6, as stated, fails: after a question was asked, answered and deleted,
    no question has its identifier, and yet the replies listed for it are
    not the empty sequence. *)
Lemma replies_outlive_their_question :
  run asked_answered_deleted empty_store = orphan_store /\
  castObjectId id0 = Some 0%N /\
  lookup_question 0 orphan_store = None /\
  get_questions_id_replies id0 orphan_store =
    (res_json (ReplyArray [mkReply 1 "hi" 0]), orphan_store).
Proof. by vm_compute. Qed.

Lemma replies_of_missing_question_witness :
  post_questions_id_replies id0 say_hi orphan_store =
    (res_status_json 404 (Message "Question not found"), orphan_store) /\
  get_questions_id_replies id0 orphan_store =
    (res_json (ReplyArray (replies_of 0 orphan_store)), orphan_store).
Proof.
  destruct (replies_of_missing_question orphan_store id0 0 say_hi)
    as (H1 & H2 & _).
  - reflexivity.
  - apply orphan_store_no_question.
  - by split.
Defined.

Lemma delete_then_not_found_witness :
  patch_questions_id id0 resolve_only
    (run [PostQuestions question_TD]
       (snd (delete_questions_id id0 one_question))) =
  (res_status_json 404 (Message "Question not found"),
   run [PostQuestions question_TD] (snd (delete_questions_id id0 one_question))).
Proof.
  apply (delete_then_not_found one_question id0).
  - apply one_question_ok.
  - reflexivity.
Defined.

Lemma login_exposes_digest_signup_does_not_witness :
  get_field "user" (to_wire (sent (fst (login alice_login alice_store)))) =
    Some (User_toJSON alice_user) /\
  has_field "password" (to_wire (sent (fst (login alice_login alice_store))))
    = true /\
  has_field "password" (to_wire (sent (fst (signup "nb" bob alice_store))))
    = false.
Proof.
  destruct (login_exposes_digest_signup_does_not alice_store alice_store
              alice_login bob "nb") as (_ & _ & H3).
  - apply alice_store_ok.
  - reflexivity.
  - reflexivity.
  - split; [reflexivity|]. split; [reflexivity | exact H3].
Defined.

Lemma reply_checks_question_first_witness :
  post_questions_id_replies id0 ∅ orphan_store =
  (res_status_json 404 (Message "Question not found"), orphan_store).
Proof.
  apply (proj1 (reply_checks_question_first orphan_store id0 ∅) 0%N).
  - reflexivity.
  - apply orphan_store_no_question.
Defined.

(** ** The further properties on the sample data *)

Lemma users_only_appended_witness :
  users (run [PostSignup "nb" bob; DeleteQuestion id0] alice_store) !! 0 =
  Some alice_user.
Proof.
  apply (proj1 (users_only_appended [PostSignup "nb" bob; DeleteQuestion id0]
                  alice_store) 0 alice_user).
  reflexivity.
Defined.

Lemma signup_then_login_witness :
  fst (login alice_login
         (run [PostSignup "nb" bob] (snd (signup "na" alice empty_store)))) =
  res_status_json 200 (MessageUser "Login successful" alice_user).
Proof.
  change alice_user
    with (mkUser (nextId empty_store) "Alice" "Liddell" "alice@example.org"
            (digest "rabbit" 10 "na")).
  apply (signup_then_login empty_store "na" alice alice_login
           "Alice" "Liddell" "alice@example.org" "rabbit" [PostSignup "nb" bob]).
  - apply empty_store_ok.
  - repeat split; done.
  - intros (u & Hin & _). inversion Hin.
  - reflexivity.
  - reflexivity.
  - reflexivity.
Defined.

Lemma login_without_password_witness :
  fst (login {[ "email" := JStr "alice@example.org" ]} alice_store) =
    res_status_json 500 (MessageError "Error during login" BcryptArguments) /\
  fst (login {[ "email" := JStr "carol@example.org" ]} alice_store) =
    res_status_json 400 (Message "Invalid email or password").
Proof.
  split.
  - destruct (login_without_password alice_store
                {[ "email" := JStr "alice@example.org" ]}) as [H1 _];
      [reflexivity|].
    apply H1. exists "alice@example.org". split; [reflexivity|].
    exists alice_user. split; [by apply list_elem_of_singleton | reflexivity].
  - destruct (login_without_password alice_store
                {[ "email" := JStr "carol@example.org" ]}) as [_ H2];
      [reflexivity|].
    apply H2. intros (e & [= <-] & u & Hin & He).
    apply list_elem_of_singleton in Hin as ->. discriminate He.
Defined.

Lemma signup_succeeds_iff_witness :
  status (fst (signup "nb" bob alice_store)) = 201.
Proof.
  apply (proj2 (signup_succeeds_iff alice_store "nb" bob)).
  exists "Bob", "Builder", "bob@example.org", "hammer".
  repeat split; try done.
  intros (u & Hin & He). apply list_elem_of_singleton in Hin as ->.
  discriminate He.
Defined.

Lemma post_questions_validates_witness :
  status (fst (post_questions {[ "title" := JStr "T" ]} one_question)) = 400 /\
  questions (snd (post_questions {[ "title" := JStr "T" ]} one_question)) =
    [question0].
Proof.
  apply (proj1 (proj2 (proj2
           (post_questions_validates one_question {[ "title" := JStr "T" ]})))).
  discriminate.
Defined.

Lemma patch_failure_keeps_store_witness :
  snd (patch_questions_id id0
         {[ "resolved" := JStr "maybe"; "upvotes" := JNum 5 ]} one_question) =
  one_question.
Proof.
  apply (patch_failure_keeps_store one_question id0
           {[ "resolved" := JStr "maybe"; "upvotes" := JNum 5 ]}).
  discriminate.
Defined.

Lemma patch_touches_one_question_witness :
  replies (snd (patch_questions_id id0 resolve_only orphan_store)) =
    [mkReply 1 "hi" 0] /\
  length (questions (snd (patch_questions_id id0 resolve_only one_question))) = 1.
Proof.
  split.
  - apply (patch_touches_one_question orphan_store id0 0 resolve_only).
    reflexivity.
  - apply (patch_touches_one_question one_question id0 0 resolve_only).
    reflexivity.
Defined.


Lemma delete_removes_one_question_witness :
  status (fst (delete_questions_id id0 one_question)) = 200 /\
  replies (snd (delete_questions_id id0 orphan_store)) = [mkReply 1 "hi" 0].
Proof.
  split.
  - destruct (delete_removes_one_question one_question id0 0) as [H1 _];
      [reflexivity|].
    apply H1. exists question0.
    split; [by apply list_elem_of_singleton | reflexivity].
  - apply (delete_removes_one_question orphan_store id0 0). reflexivity.
Defined.

Lemma reply_then_list_witness :
  fst (get_questions_id_replies id0
         (snd (post_questions_id_replies id0 say_hi one_question))) =
  res_json (ReplyArray [mkReply 1 "hi" 0]).
Proof.
  apply (reply_then_list one_question id0 0 say_hi "hi").
  - reflexivity.
  - exists question0. split; [by apply list_elem_of_singleton | reflexivity].
  - reflexivity.
  - discriminate.
Defined.

Lemma reply_without_content_witness :
  fst (post_questions_id_replies id0 ∅ one_question) =
  res_status_json 400 (ErrMessage (ValidationError ["content"])).
Proof.
  apply (reply_without_content one_question id0 0 ∅).
  - reflexivity.
  - exists question0. split; [by apply list_elem_of_singleton | reflexivity].
  - by left.
Defined.

Lemma malformed_id_statuses_witness :
  delete_questions_id "zz" one_question =
    (res_status_json 500 (ErrMessage (CastError "_id")), one_question) /\
  patch_questions_id "zz" resolve_only one_question =
    (res_status_json 400 (ErrMessage (CastError "_id")), one_question).
Proof.
  destruct (malformed_id_statuses one_question "zz" resolve_only)
    as (H1 & H2 & _); [reflexivity|].
  by split.
Defined.

Lemma stored_iff_201_witness :
  status (fst (handle (PostReply id0 say_hi) one_question)) = 201.
Proof.
  apply (proj2 (stored_iff_201 (PostReply id0 say_hi) one_question)).
  reflexivity.
Defined.

Lemma failures_carry_a_message_witness :
  exists w,
    get_field "message"
      (to_wire (sent (fst (handle (DeleteQuestion id0) orphan_store)))) = Some w.
Proof.
  apply (proj2 (failures_carry_a_message (DeleteQuestion id0) orphan_store));
    discriminate.
Defined.

Lemma stored_required_fields_witness :
  firstName alice_user <> "" /\ lastName alice_user <> "" /\
  email alice_user <> "" /\ password alice_user <> "".
Proof.
  apply (proj1 (stored_required_fields [PostSignup "na" alice]) alice_user).
  change (users (run [PostSignup "na" alice] empty_store)) with [alice_user].
  by apply list_elem_of_singleton.
Defined.

Lemma reachable_identifiers_witness :
  (questionId (mkReply 1 "hi" 0) <
   nextId (run asked_answered_deleted empty_store))%N.
Proof.
  apply (proj2 (proj2 (reachable_identifiers asked_answered_deleted))
           (mkReply 1 "hi" 0)).
  change (replies (run asked_answered_deleted empty_store))
    with [mkReply 1 "hi" 0].
  by apply list_elem_of_singleton.
Defined.

Lemma create_then_delete_witness :
  questions (snd (delete_questions_id "000000000000000000000001"
                    (snd (post_questions question_TD one_question)))) =
  [question0].
Proof.
  apply (create_then_delete one_question question_TD
           "000000000000000000000001").
  - intros q Hq. by apply list_elem_of_singleton in Hq as ->.
  - reflexivity.
  - reflexivity.
Defined.
